(** * SummarAIze backend: the summarization gateway of [backend/src/server.ts]

    A shallow embedding of the Express application: the bearer-token
    middleware [checkJwtJose], the zod schema [Body], the ordered
    Gemini -> OpenAI -> demo fallback of [POST /api/summarize] and the
    mapping of failures to HTTP responses.

    JavaScript strings are sequences of UTF-16 code units, so that
    [length] is the [.length] of the source.  External collaborators
    (jose, the two provider SDKs, zod's error rendering, the JSON parser)
    are oracles gathered in a [World]; every call to one of them, every
    [console.error] and every response sent is recorded in a trace. *)

From Stdlib Require Import ZArith NArith QArith List Ascii String Decimal DecimalN Lia.
From stdpp Require Import base option list gmap strings.

Set Warnings "-register-all".

Local Open Scope string_scope.
Local Open Scope list_scope.
Local Open Scope N_scope.

(** ** JavaScript strings *)

Module JS.

Definition jsstring := list N.

(** An ASCII literal of the source as code units. *)
Definition lit (s : string) : jsstring :=
  List.map N_of_ascii (list_ascii_of_string s).

(** Characters of the source's literals that an ASCII literal cannot hold. *)
Definition quote : jsstring := [34].      (* the double quote *)
Definition nl : jsstring := [10].         (* \n *)
Definition bullet : jsstring := [8226].   (* U+2022 *)
Definition le_sign : jsstring := [8804].  (* U+2264 *)

(** Truthiness of a string: only the empty string is falsy. *)
Definition truthy (s : jsstring) : bool :=
  match s with [] => false | _ :: _ => true end.

(** [a || b] on strings. *)
Definition or_else (a b : jsstring) : jsstring := if truthy a then a else b.

(** Truthiness of a possibly undefined string. *)
Definition truthy_opt (o : option jsstring) : bool :=
  match o with Some s => truthy s | None => false end.

Definition eqb (a b : jsstring) : bool := bool_decide (a = b).

Fixpoint startsWith (s p : jsstring) {struct p} : bool :=
  match p, s with
  | [], _ => true
  | _ :: _, [] => false
  | a :: p', b :: s' => (a =? b) && startsWith s' p'
  end.

(** [s.includes(p)] *)
Fixpoint includes (s p : jsstring) : bool :=
  startsWith s p ||
  match s with
  | [] => false
  | _ :: s' => includes s' p
  end.

(** WhiteSpace and LineTerminator code units of ECMAScript, as stripped by
    [String.prototype.trim]. *)
Definition isWhiteSpace (c : N) : bool :=
  ((9 <=? c) && (c <=? 13)) || (c =? 32) || (c =? 160) || (c =? 5760)
  || ((8192 <=? c) && (c <=? 8202)) || (c =? 8232) || (c =? 8233)
  || (c =? 8239) || (c =? 8287) || (c =? 12288) || (c =? 65279).

Fixpoint trimStart (s : jsstring) : jsstring :=
  match s with
  | [] => []
  | c :: s' => if isWhiteSpace c then trimStart s' else s
  end.

Definition trimEnd (s : jsstring) : jsstring := rev (trimStart (rev s)).

Definition trim (s : jsstring) : jsstring := trimEnd (trimStart s).

(** [toLowerCase] on the letters A-Z.  The case mappings of Unicode outside
    ASCII are left out: none of them yields a letter of the word the source
    compares the result with. *)
Definition lowerUnit (c : N) : N :=
  if (65 <=? c) && (c <=? 90) then c + 32 else c.

Definition toLowerCase (s : jsstring) : jsstring := List.map lowerUnit s.

(** [s.split(sep)] for a separator of one code unit; [cur] holds the piece
    being read, reversed. *)
Fixpoint split_from (sep : N) (s cur : jsstring) : list jsstring :=
  match s with
  | [] => [rev cur]
  | c :: s' =>
      if c =? sep then rev cur :: split_from sep s' []
      else split_from sep s' (c :: cur)
  end.

Definition split (s : jsstring) (sep : N) : list jsstring := split_from sep s [].

(** Decimal rendering of a non-negative integer, as a template literal
    renders [text.length]. *)
Fixpoint uint_units (d : Decimal.uint) : jsstring :=
  match d with
  | Decimal.Nil => []
  | Decimal.D0 d' => 48 :: uint_units d'
  | Decimal.D1 d' => 49 :: uint_units d'
  | Decimal.D2 d' => 50 :: uint_units d'
  | Decimal.D3 d' => 51 :: uint_units d'
  | Decimal.D4 d' => 52 :: uint_units d'
  | Decimal.D5 d' => 53 :: uint_units d'
  | Decimal.D6 d' => 54 :: uint_units d'
  | Decimal.D7 d' => 55 :: uint_units d'
  | Decimal.D8 d' => 56 :: uint_units d'
  | Decimal.D9 d' => 57 :: uint_units d'
  end.

Definition Number_toString (n : N) : jsstring := uint_units (N.to_uint n).

(** [s.length] *)
Definition len (s : jsstring) : N := N.of_nat (length s).

(** Values thrown in the program: [Error] objects with a name and a
    message. *)
Record JsError := mkError { err_name : jsstring; err_message : jsstring }.

Definition Error (msg : jsstring) : JsError := mkError (lit "Error") msg.

(** [Error.prototype.toString] *)
Definition Error_toString (e : JsError) : jsstring :=
  if negb (truthy (err_name e)) then err_message e
  else if negb (truthy (err_message e)) then err_name e
  else err_name e ++ lit ": " ++ err_message e.

(** [String(e?.message || e)]; an error with an empty message is rendered
    by [Error.prototype.toString]. *)
Definition message_or_string (e : JsError) : jsstring :=
  if truthy (err_message e) then err_message e else Error_toString e.

(** Values a request body can hold after JSON parsing. *)
Inductive JsValue :=
| JUndefined
| JNull
| JBool (b : bool)
| JNumber (literal : jsstring)
| JString (s : jsstring)
| JArray (items : list JsValue)
| JObject (fields : list (jsstring * JsValue)).

(** [o.k] on an object: the property's value, [undefined] when absent. *)
Fixpoint get_field (fields : list (jsstring * JsValue)) (k : jsstring) : JsValue :=
  match fields with
  | [] => JUndefined
  | (k', v) :: rest => if eqb k' k then v else get_field rest k
  end.

End JS.

Import JS.

(** ** Effects: the trace of a request and the completion of a block *)

(** What reaches [console.error] as second argument: [e?.message || e]. *)
Definition message_or_self (e : JsError) : jsstring + JsError :=
  if truthy (err_message e) then inl (err_message e) else inr e.

Inductive Event :=
| JwtVerify (token jwks issuer audience : jsstring)
| GenerateContent (apiKey model prompt : jsstring)
| ChatCompletionsCreate (apiKey model system user : jsstring)
| ConsoleError (tag : jsstring) (arg : jsstring + JsError)
| SendJson (status : N) (body : gmap string jsstring)
| SendError (status : N).

(** How a block of statements completes: normally with a value, by a
    [throw], or by a [return] of the enclosing function. *)
Inductive Completion (A : Type) :=
| Normal (a : A)
| Thrown (e : JsError)
| Returned.
Arguments Normal {A} a.
Arguments Thrown {A} e.
Arguments Returned {A}.

Definition M (A : Type) : Type := list Event * Completion A.

Definition ret {A} (a : A) : M A := ([], Normal a).

Definition bind {A B} (m : M A) (k : A -> M B) : M B :=
  match m with
  | (t, Normal a) => let '(t', c) := k a in (t ++ t', c)
  | (t, Thrown e) => (t, Thrown e)
  | (t, Returned) => (t, Returned)
  end.

Notation "x <- m ;; k" := (bind m (fun x => k))
  (at level 100, m at next level, right associativity).
Notation "m ;;; k" := (bind m (fun _ => k))
  (at level 100, right associativity).

Definition emit (e : Event) : M unit := ([e], Normal tt).
Definition throw {A} (e : JsError) : M A := ([], Thrown e).
Definition return_ {A} : M A := ([], Returned).

(** [try { body } catch (e) { handler }] *)
Definition try_catch {A} (body : M A) (handler : JsError -> M A) : M A :=
  match body with
  | (t, Thrown e) => let '(t', c) := handler e in (t ++ t', c)
  | other => other
  end.

(** An awaited call of a collaborator: the call is recorded, then its
    promise resolves or rejects. *)
Definition await {A} (call : Event) (result : JsError + A) : M A :=
  emit call ;;;
  match result with
  | inl e => throw e
  | inr a => ret a
  end.

(** Calling an [async] function without awaiting it: its effects happen,
    a rejection stays in its promise. *)
Definition call_async (body : M unit) : M unit := (fst body, Normal tt).

Definition trace {A} (m : M A) : list Event := fst m.

(** Observations on a trace. *)
Definition is_response (e : Event) : bool :=
  match e with SendJson _ _ | SendError _ => true | _ => false end.

Definition is_provider_call (e : Event) : bool :=
  match e with GenerateContent _ _ _ | ChatCompletionsCreate _ _ _ _ => true | _ => false end.

Definition is_verifier_call (e : Event) : bool :=
  match e with JwtVerify _ _ _ _ => true | _ => false end.

Definition responses (t : list Event) : list Event := List.filter is_response t.
Definition provider_calls (t : list Event) : list Event := List.filter is_provider_call t.
Definition verifier_calls (t : list Event) : list Event := List.filter is_verifier_call t.

(** ** The collaborators *)

Inductive ZodParsedType :=
| zt_string | zt_number | zt_boolean | zt_null | zt_undefined
| zt_array | zt_object.

Inductive ZodIssue :=
| invalid_type (expected received : ZodParsedType) (path : list jsstring)
| too_small (minimum : N) (path : list jsstring)
| too_big (maximum : N) (path : list jsstring).

Record World := {
  (** [jwtVerify(token, JWKS, { issuer, audience })]: the payload of a
      verified token, or the error jose rejects with. *)
  jwtVerify : jsstring -> jsstring -> jsstring -> jsstring ->
              JsError + gmap string jsstring;
  (** [new GoogleGenerativeAI(key).getGenerativeModel({ model })
      .generateContent(prompt)] up to [result.response.text()]. *)
  generateContent : jsstring -> jsstring -> jsstring -> JsError + jsstring;
  (** [new OpenAI({ apiKey }).chat.completions.create(...)] up to
      [completion.choices?.[0]?.message?.content]. *)
  chatCompletionsCreate : jsstring -> jsstring -> jsstring -> jsstring ->
                          JsError + option jsstring;
  (** The [message] of a [ZodError] holding the given issues. *)
  zodMessage : list ZodIssue -> jsstring;
  (** [JSON.parse] of a request body, as the body parser applies it. *)
  JSON_parse : list Byte.byte -> option JsValue;
}.

Record Request := {
  authorization : option jsstring;   (* req.headers.authorization *)
  content_type_json : bool;          (* Content-Type is application/json *)
  raw_body : list Byte.byte;         (* the bytes of the body *)
  body : JsValue;                    (* req.body *)
}.

Definition set_body (req : Request) (v : JsValue) : Request :=
  {| authorization := authorization req;
     content_type_json := content_type_json req;
     raw_body := raw_body req;
     body := v |}.

(** [res.status(status).json(obj)] *)
Definition res_json (status : N) (obj : gmap string jsstring) : M unit :=
  emit (SendJson status obj).

(** A property whose value may be [undefined]: JSON leaves it out. *)
Definition with_field (k : string) (v : option jsstring)
  (obj : gmap string jsstring) : gmap string jsstring :=
  match v with
  | Some s => <[k := s]> obj
  | None => obj
  end.

(** A middleware either answers or hands the request to the next one. *)
Definition Middleware : Type := Request -> (Request -> M unit) -> M unit.

(** [app.use(m1); app.use(m2); ...]: the stack runs in registration order. *)
Fixpoint run_stack (stack : list Middleware) (final : Request -> M unit)
  (req : Request) : M unit :=
  match stack with
  | [] => final req
  | mw :: rest => mw req (run_stack rest final)
  end.

(** ** Configuration read from [process.env] *)

Section Server.

Variable W : World.
Variable env : gmap string jsstring.

(** [process.env.K || d] *)
Definition env_or (k : string) (d : jsstring) : jsstring :=
  or_else (default [] (env !! k)) d.

Definition GEMINI_MODEL : jsstring := env_or "GEMINI_MODEL" (lit "gemini-2.0-flash").
Definition AUTH0_DOMAIN : jsstring := env_or "AUTH0_DOMAIN" [].
Definition AUTH0_AUDIENCE : jsstring := env_or "AUTH0_AUDIENCE" [].

Definition ISSUER : jsstring :=
  if truthy AUTH0_DOMAIN then lit "https://" ++ AUTH0_DOMAIN ++ lit "/" else [].

(** The remote key set, [null] without a domain.  The key set is named by
    the string the source hands to [new URL]; the embedding does not follow
    the URL parser, which may write the address differently and which
    throws, when the module is loaded, on a domain that gives no valid URL. *)
Definition JWKS : option jsstring :=
  if truthy AUTH0_DOMAIN then Some (ISSUER ++ lit ".well-known/jwks.json") else None.

(** ** Validation: [z.object({ text: z.string().min(1).max(20000) })] *)

Definition getParsedType (v : JsValue) : ZodParsedType :=
  match v with
  | JUndefined => zt_undefined
  | JNull => zt_null
  | JBool _ => zt_boolean
  | JNumber _ => zt_number
  | JString _ => zt_string
  | JArray _ => zt_array
  | JObject _ => zt_object
  end.

(** [z.string().min(lo).max(hi)] at [path]: the string itself, or the
    issues of the checks that fail. *)
Definition string_min_max (lo hi : N) (path : list jsstring) (v : JsValue)
  : list ZodIssue + jsstring :=
  match v with
  | JString s =>
      match (if len s <? lo then [too_small lo path] else []) ++
            (if hi <? len s then [too_big hi path] else []) with
      | [] => inr s
      | issues => inl issues
      end
  | _ => inl [invalid_type zt_string (getParsedType v) path]
  end.

(** [Body.safeParse(body)], destructured to its [text] on success. *)
Definition Body_safeParse (body : JsValue) : list ZodIssue + jsstring :=
  match body with
  | JObject fields =>
      string_min_max 1 20000 [lit "text"] (get_field fields (lit "text"))
  | _ => inl [invalid_type zt_object (getParsedType body) []]
  end.

Definition ZodError (issues : list ZodIssue) : JsError :=
  mkError (lit "ZodError") (zodMessage W issues).

(** [Body.parse(req.body)] *)
Definition Body_parse (body : JsValue) : M jsstring :=
  match Body_safeParse body with
  | inr text => ret text
  | inl issues => throw (ZodError issues)
  end.

(** ** Auth: the jose middleware *)

Definition unauthorized_body (detail : option jsstring) : gmap string jsstring :=
  with_field "detail" detail {["error" := lit "Unauthorized"]}.

Definition unauthorized {A} (detail : option jsstring) : M A :=
  res_json 401 (unauthorized_body detail) ;;;
  return_.

Definition auth_not_configured : jsstring :=
  lit "Auth not configured on server (missing AUTH0_* envs).".

Definition missing_bearer_token : jsstring := lit "Missing Bearer token".

(** [const [scheme, token] = (req.headers.authorization || "").split(" ")] *)
Definition auth_parts (req : Request) : list jsstring :=
  split (or_else (default [] (authorization req)) []) 32.
Definition scheme_of (req : Request) : option jsstring := auth_parts req !! 0%nat.
Definition token_of (req : Request) : option jsstring := auth_parts req !! 1%nat.

(** [scheme?.toLowerCase() !== "bearer"] *)
Definition scheme_is_not_bearer (scheme : option jsstring) : bool :=
  negb (bool_decide (toLowerCase <$> scheme = Some (lit "bearer"))).

(** The payload is attached to the request as [req.auth] and not read
    again; the embedding leaves the assignment out. *)
Definition checkJwtJose (req : Request) (next : M unit) : M unit :=
  try_catch
    (match (if truthy AUTH0_AUDIENCE && truthy ISSUER then JWKS else None) with
     | None => unauthorized (Some auth_not_configured)
     | Some jwks =>
         let scheme := scheme_of req in
         let token := token_of req in
         if scheme_is_not_bearer scheme || negb (truthy_opt token)
         then unauthorized (Some missing_bearer_token)
         else
           let tok := default [] token in
           payload <- await (JwtVerify tok jwks ISSUER AUTH0_AUDIENCE)
                            (jwtVerify W tok jwks ISSUER AUTH0_AUDIENCE) ;;
           next ;;;
           return_
     end)
    (fun e => unauthorized (Some (message_or_string e))).

(** *** Observations on the verifier, used to state properties *)

(** The decision of the token verifier: the service is configured, the
    header holds a bearer scheme and a token, and jose accepts the token. *)
Definition authenticates (req : Request) : bool :=
  match (if truthy AUTH0_AUDIENCE && truthy ISSUER then JWKS else None) with
  | None => false
  | Some jwks =>
      if scheme_is_not_bearer (scheme_of req) || negb (truthy_opt (token_of req))
      then false
      else
        match jwtVerify W (default [] (token_of req)) jwks ISSUER AUTH0_AUDIENCE with
        | inr _ => true
        | inl _ => false
        end
  end.

(** The one call the middleware makes to jose. *)
Definition verify_call (req : Request) : Event :=
  JwtVerify (default [] (token_of req)) (ISSUER ++ lit ".well-known/jwks.json")
            ISSUER AUTH0_AUDIENCE.

(** The header is missing or malformed: no bearer scheme, or no token. *)
Definition header_malformed (req : Request) : bool :=
  scheme_is_not_bearer (scheme_of req) || negb (truthy_opt (token_of req)).

(** The service is configured for auth: a domain and an audience. *)
Definition auth_configured : bool :=
  truthy AUTH0_DOMAIN && truthy AUTH0_AUDIENCE.

(** ** The protected summarize handler *)

Definition gemini_prompt (text : jsstring) : jsstring :=
  lit "Summarize the following notes into exactly 5 concise, factual bullet points."
  ++ nl ++ nl ++ text.

Definition openai_system : jsstring :=
  lit "Summarize the user's notes into exactly 5 concise, factual bullet points.".

Definition gpt_4o_mini : jsstring := lit "gpt-4o-mini".

Definition demo_summary (text : jsstring) : jsstring :=
  bullet ++ lit " (Demo) No AI provider responded" ++ nl ++
  bullet ++ lit " Gemini model tried: " ++ GEMINI_MODEL ++ nl ++
  bullet ++ lit " Tip: set GEMINI_API_KEY (AI Studio) with gemini-2.0-flash" ++ nl ++
  bullet ++ lit " Or add OPENAI_API_KEY (with quota)" ++ nl ++
  bullet ++ lit " Input length: " ++ Number_toString (len text) ++ lit " chars".

Definition at_text : jsstring := lit "at " ++ quote ++ lit "text" ++ quote.

Definition quota_marker : jsstring := lit "exceeded your current quota".

(** The objects the handler answers with. *)
Definition gemini_result (summary : jsstring) : gmap string jsstring :=
  <["summary" := summary]>
    (<["provider" := lit "gemini"]> {["model" := GEMINI_MODEL]}).

Definition openai_result (summary : jsstring) : gmap string jsstring :=
  <["summary" := summary]>
    (<["provider" := lit "openai"]> {["model" := gpt_4o_mini]}).

Definition openai_quota_body : gmap string jsstring :=
  <["error" := lit "OpenAI quota exceeded. Check plan/billing or use Gemini."]>
    {["provider" := lit "openai"]}.

Definition demo_result (text : jsstring) : gmap string jsstring :=
  <["summary" := demo_summary text]> {["provider" := lit "demo"]}.

Definition gemini_unavailable_body : gmap string jsstring :=
  <["error" := lit "Gemini model unavailable. Use 'gemini-2.0-flash' or 'gemini-2.5-flash-lite' and ensure Generative Language API is enabled."]>
    (<["provider" := lit "gemini"]> {["model" := GEMINI_MODEL]}).

Definition invalid_body : gmap string jsstring :=
  {["error" := lit "Invalid body. Provide non-empty 'text' " ++ le_sign ++ lit " 20,000 chars."]}.

Definition server_error_body : gmap string jsstring :=
  {["error" := lit "Unexpected server error. Check server logs."]}.

(** [process.env.K] when it is truthy. *)
Definition api_key (k : string) : option jsstring :=
  match env !! k with
  | Some key => if truthy key then Some key else None
  | None => None
  end.

(** The calls to the two providers, and the error the OpenAI block throws
    on an empty answer. *)
Definition gemini_call (key text : jsstring) : Event :=
  GenerateContent key GEMINI_MODEL (gemini_prompt text).

Definition openai_call (key text : jsstring) : Event :=
  ChatCompletionsCreate key gpt_4o_mini openai_system text.

Definition empty_response_error : JsError :=
  Error (lit "OpenAI returned an empty response.").

(** The try-Gemini-first block. *)
Definition try_gemini (text : jsstring) : M unit :=
  match api_key "GEMINI_API_KEY" with
  | Some key =>
      try_catch
        (response_text <-
           await (gemini_call key text)
                 (generateContent W key GEMINI_MODEL (gemini_prompt text)) ;;
         let summary := trim response_text in
         if truthy summary then
           res_json 200 (gemini_result summary) ;;;
           return_
         else ret tt)
        (fun gerr =>
           emit (ConsoleError (lit "[Gemini] error:") (message_or_self gerr)))
  | None => ret tt
  end.

(** The OpenAI fallback block. *)
Definition try_openai (text : jsstring) : M unit :=
  match api_key "OPENAI_API_KEY" with
  | Some key =>
      try_catch
        (content <-
           await (openai_call key text)
                 (chatCompletionsCreate W key gpt_4o_mini openai_system text) ;;
         let summary := default [] (trim <$> content) in
         if truthy summary then
           res_json 200 (openai_result summary) ;;;
           return_
         else throw empty_response_error)
        (fun oerr =>
           emit (ConsoleError (lit "[OpenAI] error:") (message_or_self oerr)) ;;;
           if includes (err_message oerr) quota_marker then
             res_json 429 openai_quota_body ;;;
             return_
           else ret tt)
  | None => ret tt
  end.

(** *** Observations on the providers, used to state properties *)

(** Gemini yields no summary: it is not configured, it throws, or it
    answers with text that trims to nothing. *)
Definition gemini_gives_no_summary (text : jsstring) : bool :=
  match api_key "GEMINI_API_KEY" with
  | None => true
  | Some key =>
      match generateContent W key GEMINI_MODEL (gemini_prompt text) with
      | inl _ => true
      | inr r => negb (truthy (trim r))
      end
  end.

(** OpenAI yields no summary and no quota error: it is not configured, it
    throws an error whose message lacks the quota marker, or it answers
    with no content. *)
Definition openai_gives_no_summary_nor_quota (text : jsstring) : bool :=
  match api_key "OPENAI_API_KEY" with
  | None => true
  | Some key =>
      match chatCompletionsCreate W key gpt_4o_mini openai_system text with
      | inl e => negb (includes (err_message e) quota_marker)
      | inr c => negb (truthy (default [] (trim <$> c)))
      end
  end.

(** [msg.includes("ListModels") || msg.includes("404 Not Found") ||
    msg.includes("models/gemini-pro")] *)
Definition gemini_misconfig_message (msg : jsstring) : bool :=
  includes msg (lit "ListModels") || includes msg (lit "404 Not Found")
  || includes msg (lit "models/gemini-pro").

Definition summarize_handler (req : Request) : M unit :=
  try_catch
    (text <- Body_parse (body req) ;;
     try_gemini text ;;;
     try_openai text ;;;
     res_json 200 (demo_result text) ;;;
     return_)
    (fun err =>
       let msg := message_or_string err in
       if gemini_misconfig_message msg then
         res_json 400 gemini_unavailable_body ;;;
         return_
       else if includes msg at_text then
         res_json 400 invalid_body ;;;
         return_
       else
         emit (ConsoleError (lit "[Summarize handler] error:") (inl msg)) ;;;
         res_json 500 server_error_body ;;;
         return_).

(** The answer of the outer [catch] to an error with message [msg]. *)
Definition catch_answer (msg : jsstring) : list Event :=
  if gemini_misconfig_message msg then [SendJson 400 gemini_unavailable_body]
  else if includes msg at_text then [SendJson 400 invalid_body]
  else [ConsoleError (lit "[Summarize handler] error:") (inl msg);
        SendJson 500 server_error_body].

(** [app.post("/api/summarize", checkJwtJose, handler)] *)
Definition summarize_route (req : Request) : M unit :=
  checkJwtJose req (call_async (summarize_handler req)).

(** ** The application: the middleware stack before the route *)

(** [cors({ origin: true })] on a POST sets response headers and goes on. *)
Definition cors_middleware : Middleware := fun req next => next req.

(** The ceiling of [express.json({ limit: "1mb" })], in bytes. *)
Definition body_limit : N := 1024 * 1024.

(** [express.json({ limit })], for requests in a character set and a
    content encoding the parser reads (it answers the others with 415,
    which the embedding leaves out).  A body that is not JSON-typed or is
    empty is not read, and [req.body] is then the empty object, as
    body-parser 1 of Express 4 leaves it (Express 5 leaves it undefined); a
    body over the ceiling or one that does not parse is passed as an error
    to Express's error handler, which answers with the error's status, 413
    or 400. *)
Definition express_json (limit : N) : Middleware := fun req next =>
  if negb (content_type_json req) || bool_decide (raw_body req = []) then
    next (set_body req (JObject []))
  else if limit <? N.of_nat (length (raw_body req)) then
    emit (SendError 413)
  else
    match JSON_parse W (raw_body req) with
    | Some v => next (set_body req v)
    | None => emit (SendError 400)
    end.

Definition app_post_summarize (req : Request) : M unit :=
  run_stack [cors_middleware; express_json body_limit] summarize_route req.

End Server.

(** ** zod 3's rendering of a [ZodError]

    The [message] getter of zod 3's [ZodError] is
    [JSON.stringify(this.issues, jsonStringifyReplacer, 2)]; the issues carry
    the messages of zod's default error map.  The strings that occur need no
    JSON escaping. *)

Module Zod3.

Definition type_name (t : ZodParsedType) : jsstring :=
  match t with
  | zt_string => lit "string"
  | zt_number => lit "number"
  | zt_boolean => lit "boolean"
  | zt_null => lit "null"
  | zt_undefined => lit "undefined"
  | zt_array => lit "array"
  | zt_object => lit "object"
  end.

Definition default_message (i : ZodIssue) : jsstring :=
  match i with
  | invalid_type _ zt_undefined _ => lit "Required"
  | invalid_type e r _ =>
      lit "Expected " ++ type_name e ++ lit ", received " ++ type_name r
  | too_small m _ =>
      lit "String must contain at least " ++ Number_toString m ++ lit " character(s)"
  | too_big m _ =>
      lit "String must contain at most " ++ Number_toString m ++ lit " character(s)"
  end.

Definition json_string (s : jsstring) : jsstring := quote ++ s ++ quote.

Fixpoint join (sep : jsstring) (l : list jsstring) : jsstring :=
  match l with
  | [] => []
  | [x] => x
  | x :: rest => x ++ sep ++ join sep rest
  end.

Definition indent (n : nat) : jsstring := repeat 32 n.

Definition render_array (depth : nat) (items : list jsstring) : jsstring :=
  match items with
  | [] => lit "[]"
  | _ =>
      lit "[" ++ nl
      ++ join (lit "," ++ nl) (List.map (fun x => indent (depth + 2) ++ x) items)
      ++ nl ++ indent depth ++ lit "]"
  end.

Definition render_object (depth : nat) (fields : list (string * jsstring)) : jsstring :=
  lit "{" ++ nl
  ++ join (lit "," ++ nl)
       (List.map (fun kv => indent (depth + 2) ++ json_string (lit (fst kv))
                            ++ lit ": " ++ snd kv) fields)
  ++ nl ++ indent depth ++ lit "}".

Definition render_path (path : list jsstring) : jsstring :=
  render_array 4 (List.map json_string path).

Definition issue_fields (i : ZodIssue) : list (string * jsstring) :=
  match i with
  | invalid_type e r path =>
      [("code", json_string (lit "invalid_type"));
       ("expected", json_string (type_name e));
       ("received", json_string (type_name r));
       ("path", render_path path);
       ("message", json_string (default_message i))]
  | too_small m path =>
      [("code", json_string (lit "too_small"));
       ("minimum", Number_toString m);
       ("type", json_string (lit "string"));
       ("inclusive", lit "true");
       ("exact", lit "false");
       ("message", json_string (default_message i));
       ("path", render_path path)]
  | too_big m path =>
      [("code", json_string (lit "too_big"));
       ("maximum", Number_toString m);
       ("type", json_string (lit "string"));
       ("inclusive", lit "true");
       ("exact", lit "false");
       ("message", json_string (default_message i));
       ("path", render_path path)]
  end.

Definition message (issues : list ZodIssue) : jsstring :=
  render_array 0 (List.map (fun i => render_object 2 (issue_fields i)) issues).

End Zod3.

(** ** Sample deployments and requests *)

Module Sample.

Definition token : jsstring := lit "eyJhbGciOiJSUzI1NiJ9.e30.c2ln".

(** A key set that accepts [token] and nothing else. *)
Definition jose (tok jwks issuer audience : jsstring)
  : JsError + gmap string jsstring :=
  if eqb tok token then inr {["sub" := lit "auth0|user"]}
  else inl (mkError (lit "JWSInvalid") (lit "Invalid Compact JWS")).

Definition no_gemini (key model prompt : jsstring) : JsError + jsstring :=
  inl (Error (lit "fetch failed")).

Definition no_openai (key model system user : jsstring)
  : JsError + option jsstring :=
  inl (Error (lit "Connection error.")).

Definition world (gemini : jsstring -> jsstring -> jsstring -> JsError + jsstring)
  (openai : jsstring -> jsstring -> jsstring -> jsstring -> JsError + option jsstring)
  : World :=
  {| jwtVerify := jose;
     generateContent := gemini;
     chatCompletionsCreate := openai;
     zodMessage := Zod3.message;
     JSON_parse := fun _ => None |}.

Definition auth_env : gmap string jsstring :=
  <["AUTH0_DOMAIN" := lit "dev-xxx.us.auth0.com"]>
    {["AUTH0_AUDIENCE" := lit "https://summaraize.api"]}.

Definition gemini_env : gmap string jsstring :=
  <["GEMINI_API_KEY" := lit "AIza-key"]> auth_env.

Definition openai_env : gmap string jsstring :=
  <["OPENAI_API_KEY" := lit "sk-key"]> auth_env.

Definition both_env : gmap string jsstring :=
  <["OPENAI_API_KEY" := lit "sk-key"]> gemini_env.

(** A parsed request with the given header and body. *)
Definition request (auth : option jsstring) (b : JsValue) : Request :=
  {| authorization := auth; content_type_json := true; raw_body := []; body := b |}.

Definition bearer : option jsstring := Some (lit "Bearer " ++ token).

Definition text_body (text : jsstring) : JsValue :=
  JObject [(lit "text", JString text)].

Definition notes : jsstring := lit "standup at ten; ship the release".

(** Provider behaviours. *)
Definition gemini_ok (key model prompt : jsstring) : JsError + jsstring :=
  inr (lit " * point one ").

Definition openai_ok (key model system user : jsstring)
  : JsError + option jsstring :=
  inr (Some (lit "- point one")).



Definition gemini_unknown_model (key model prompt : jsstring) : JsError + jsstring :=
  inl (Error (lit "[404 Not Found] models/gemini-pro is not found for API version v1beta, or is not supported for generateContent. Call ListModels to see the list of available models and their supported methods.")).

End Sample.

(** ** The page: [frontend/app/page.tsx]

    The state of the [Home] component, the browser's [localStorage] and the
    calls to the Auth0 SDK and to [fetch] are threaded through a state and
    error monad.  The page runs in the browser, where
    [typeof window !== "undefined"] holds.  The responses the page reads
    are those of the gateway: JSON objects whose fields are strings. *)

Module UI.

Definition MAX_CHARS : N := 20000.
Definition LS_TEXT : string := "summarize:text".
Definition LS_RESUME : string := "summarize:resume".

(** Values thrown in the page: errors with a [message] and, for those of
    the Auth0 SDK, an [error] or a [code].  A field that is missing is the
    empty string; the page treats the two alike. *)
Record PageError := {
  pe_error : jsstring;
  pe_code : jsstring;
  pe_message : jsstring;
}.

(** [new Error(msg)] *)
Definition new_Error (msg : jsstring) : PageError :=
  {| pe_error := []; pe_code := []; pe_message := msg |}.

(** What [fetch] resolves with: the status and, when the body parses as
    JSON, its object. *)
Record FetchResponse := {
  status : N;
  json : option (gmap string jsstring);
}.

(** [res.ok] *)
Definition ok (res : FetchResponse) : bool :=
  (200 <=? status res) && (status res <=? 299).

Inductive Call :=
| GetAccessTokenSilently (audience : jsstring)
| LoginWithRedirect (audience : jsstring)
| Fetch (url authorization : jsstring) (body : JsValue).

Record Browser := {
  (** [getAccessTokenSilently({ authorizationParams: { audience } })] *)
  getAccessTokenSilently : jsstring -> PageError + jsstring;
  (** [loginWithRedirect({ authorizationParams: { audience, prompt:
      "login" } })]: [Some e] when its promise rejects with [e]. *)
  loginWithRedirect : jsstring -> option PageError;
  (** [fetch(url, { method: "POST", headers: { "Content-Type":
      "application/json", Authorization }, body: JSON.stringify(body) })] *)
  fetch : jsstring -> jsstring -> JsValue -> PageError + FetchResponse;
}.

(** The state of the component. *)
Record Page := {
  text : jsstring;
  summary : jsstring;
  loading : bool;
  error : option jsstring;
}.

(** [useState("")], [useState("")], [useState(false)], [useState(null)] *)
Definition initial_page : Page :=
  {| text := []; summary := []; loading := false; error := None |}.

Record Ctx := {
  page : Page;
  localStorage : gmap string jsstring;
  calls : list Call;
}.

Definition UIM (A : Type) : Type := Ctx -> Ctx * (PageError + A).

Definition ret {A} (a : A) : UIM A := fun ctx => (ctx, inr a).

Definition bind {A B} (m : UIM A) (k : A -> UIM B) : UIM B := fun ctx =>
  match m ctx with
  | (ctx', inr a) => k a ctx'
  | (ctx', inl e) => (ctx', inl e)
  end.

Notation "x <~ m ;; k" := (bind m (fun x => k))
  (at level 100, m at next level, right associativity).
Notation "m ;;~ k" := (bind m (fun _ => k))
  (at level 100, right associativity).

Definition throw {A} (e : PageError) : UIM A := fun ctx => (ctx, inl e).

(** [try { body } catch (e) { handler }] *)
Definition try_catch {A} (body : UIM A) (handler : PageError -> UIM A) : UIM A :=
  fun ctx =>
    match body ctx with
    | (ctx', inl e) => handler e ctx'
    | done => done
    end.

(** [try { body } finally { cleanup }] *)
Definition try_finally {A} (body : UIM A) (cleanup : UIM unit) : UIM A :=
  fun ctx =>
    match body ctx with
    | (ctx', r) =>
        match cleanup ctx' with
        | (ctx'', inr _) => (ctx'', r)
        | (ctx'', inl e) => (ctx'', inl e)
        end
    end.

Definition update_page (f : Page -> Page) : UIM unit := fun ctx =>
  ({| page := f (page ctx); localStorage := localStorage ctx; calls := calls ctx |},
   inr tt).

Definition setText (v : jsstring) : UIM unit :=
  update_page (fun p => {| text := v; summary := summary p;
                           loading := loading p; error := error p |}).
Definition setSummary (v : jsstring) : UIM unit :=
  update_page (fun p => {| text := text p; summary := v;
                           loading := loading p; error := error p |}).
Definition setLoading (v : bool) : UIM unit :=
  update_page (fun p => {| text := text p; summary := summary p;
                           loading := v; error := error p |}).
Definition setError (v : option jsstring) : UIM unit :=
  update_page (fun p => {| text := text p; summary := summary p;
                           loading := loading p; error := v |}).

Definition update_storage (f : gmap string jsstring -> gmap string jsstring)
  : UIM unit := fun ctx =>
  ({| page := page ctx; localStorage := f (localStorage ctx); calls := calls ctx |},
   inr tt).

(** [localStorage.setItem(k, v)] and [localStorage.removeItem(k)] *)
Definition setItem (k : string) (v : jsstring) : UIM unit :=
  update_storage (fun s => <[k := v]> s).
Definition removeItem (k : string) : UIM unit :=
  update_storage (fun s => delete k s).

(** An awaited call of the SDK or of [fetch]. *)
Definition await {A} (call : Call) (result : PageError + A) : UIM A := fun ctx =>
  ({| page := page ctx; localStorage := localStorage ctx;
      calls := calls ctx ++ [call] |},
   result).

Section Home.

Variable B : Browser.
(** [process.env.NEXT_PUBLIC_API_BASE ?? ""] and
    [process.env.NEXT_PUBLIC_AUTH0_AUDIENCE ?? ""] *)
Variable apiBase : jsstring.
Variable audience : jsstring.

(** [code.includes("login_required") || code.includes("consent_required")
    || code.includes("interaction_required")] *)
Definition needs_login (code : jsstring) : bool :=
  includes code (lit "login_required") || includes code (lit "consent_required")
  || includes code (lit "interaction_required").

(** [getApiToken]; the [text] it stores is the one of the component's
    state, which no step of a summarize run changes.  The code is
    lower-cased on A-Z only: no case mapping of Unicode outside ASCII yields
    a match of one of the three words. *)
Definition getApiToken : UIM jsstring :=
  try_catch
    (token <~ await (GetAccessTokenSilently audience)
                    (getAccessTokenSilently B audience) ;;
     if negb (truthy token) then throw (new_Error (lit "No access token"))
     else ret token)
    (fun e =>
       let code := toLowerCase (or_else (pe_error e) (or_else (pe_code e) [])) in
       (if needs_login code then
          setItem LS_RESUME (lit "1") ;;~
          (fun ctx => setItem LS_TEXT (text (page ctx)) ctx) ;;~
          await (LoginWithRedirect audience)
                (match loginWithRedirect B audience with
                 | Some e' => inl e'
                 | None => inr tt
                 end)
        else ret tt) ;;~
       throw e).

Definition missing_api_base : jsstring :=
  lit "Missing NEXT_PUBLIC_API_BASE in .env.local (e.g. http://localhost:4000/api). Restart dev server after adding.".

(** The object handed to [JSON.stringify] as body of the request. *)
Definition request_body (trimmed : jsstring) : JsValue :=
  JObject [(lit "text", JString trimmed)].

(** [data?.detail || data?.error || `Request failed (${res.status})`] *)
Definition failure_message (res : FetchResponse) : jsstring :=
  let data := default ∅ (json res) in
  or_else (default [] (data !! "detail"))
    (or_else (default [] (data !! "error"))
       (lit "Request failed (" ++ Number_toString (status res) ++ lit ")")).

Definition doSummarize (trimmed : jsstring) : UIM unit :=
  if negb (truthy apiBase) then setError (Some missing_api_base)
  else
    setLoading true ;;~
    setSummary [] ;;~
    setError None ;;~
    try_finally
      (try_catch
         (token <~ getApiToken ;;
          res <~ await (Fetch (apiBase ++ lit "/summarize") (lit "Bearer " ++ token)
                          (request_body trimmed))
                       (fetch B (apiBase ++ lit "/summarize") (lit "Bearer " ++ token)
                          (request_body trimmed)) ;;
          let data := default ∅ (json res) in
          if negb (ok res) then throw (new_Error (failure_message res))
          else setSummary (default [] (data !! "summary")))
         (fun err =>
            setError (Some (or_else (pe_message err) (lit "Failed to summarize.")))))
      (setLoading false).

Definition too_long_message (n : N) : jsstring :=
  lit "Input is too long (" ++ Number_toString n ++ lit " chars). Max is "
  ++ Number_toString MAX_CHARS ++ lit ".".

Definition handleSummarize : UIM unit := fun ctx =>
  let trimmed := trim (text (page ctx)) in
  if negb (truthy trimmed) then ret tt ctx
  else if MAX_CHARS <? len trimmed then
    setError (Some (too_long_message (len trimmed))) ctx
  else doSummarize trimmed ctx.

(** The effect that restores the textarea after a redirect. *)
Definition restore_effect : UIM unit := fun ctx =>
  match localStorage ctx !! LS_TEXT with
  | Some saved => if truthy saved then setText saved ctx else ret tt ctx
  | None => ret tt ctx
  end.

(** The effect that resumes a summarize run after the return from Auth0;
    the run it starts is not awaited. *)
Definition resume_effect (isAuthenticated : bool) : UIM unit := fun ctx =>
  let shouldResume :=
    bool_decide (localStorage ctx !! LS_RESUME = Some (lit "1")) in
  if isAuthenticated && shouldResume && truthy (trim (text (page ctx))) then
    (removeItem LS_RESUME ;;~
     (fun ctx' => (fst (doSummarize (trim (text (page ctx))) ctx'), inr tt))) ctx
  else ret tt ctx.

(** The [onChange] of the textarea. *)
Definition onChange (value : jsstring) : UIM unit :=
  setText value ;;~ setItem LS_TEXT value.

End Home.

(** ** PDF export: the layout of [downloadPdf] *)

Inductive DocOp :=
| SetFont (family style : jsstring)
| SetFontSize (size : Z)
| SetTextColor (gray : Z)
| DocText (line : jsstring) (x y : Z)
| AddPage
| Save (filename : jsstring).

(** [y > pageBottom] for the integer [y] *)
Definition below (pageBottom : Q) (y : Z) : bool :=
  negb (Qle_bool (inject_Z y) pageBottom).

(** The loop over the lines of the body, from the vertical position [y]. *)
Fixpoint draw_lines (pageBottom : Q) (lines : list jsstring) (y : Z) : list DocOp :=
  match lines with
  | [] => []
  | line :: rest =>
      if below pageBottom y then
        AddPage :: DocText line 48 64 :: draw_lines pageBottom rest (64 + 16)
      else
        DocText line 48 y :: draw_lines pageBottom rest (y + 16)
  end.

(** [downloadPdf(contents)].  [pageBottom] is the value of
    [doc.internal.pageSize.getHeight() - 64], [lines] the result of
    [doc.splitTextToSize(contents, maxWidth)], [now_locale] and [now_iso]
    those of [new Date().toLocaleString()] and [new Date().toISOString()]. *)
Definition downloadPdf (pageBottom : Q) (lines : list jsstring)
  (now_locale now_iso : jsstring) : list DocOp :=
  [SetFont (lit "helvetica") (lit "bold");
   SetFontSize 18;
   DocText (lit "SummarAIze " ++ [8212] ++ lit " Summary") 48 64;
   SetFont (lit "helvetica") (lit "normal");
   SetFontSize 10;
   SetTextColor 100;
   DocText (lit "Generated: " ++ now_locale) 48 (64 + 24);
   SetTextColor 0;
   SetFontSize 12]
  ++ draw_lines pageBottom lines (64 + 24 + 20)
  ++ [Save (lit "summary-" ++ take 10 now_iso ++ lit ".pdf")].

(** ** The page in front of the gateway *)

(** The response [fetch] resolves with when the gateway runs with trace
    [t]: the JSON response sent, or the parser's error page, whose body is
    not JSON. *)
Definition gateway_response (t : list Event) : PageError + FetchResponse :=
  match responses t with
  | SendJson st b :: _ => inr {| status := st; json := Some b |}
  | SendError st :: _ => inr {| status := st; json := None |}
  | _ => inl (new_Error (lit "Failed to fetch"))
  end.

(** The request the route sees for a [fetch] of the page, once the body
    parser has read the JSON body back. *)
Definition gateway_request (authorization : jsstring) (body : JsValue) : Request :=
  {| authorization := Some authorization; content_type_json := true;
     raw_body := []; body := body |}.

(** [fetch] against the gateway. *)
Definition gateway_fetch (W : World) (env : gmap string jsstring)
  (url authorization : jsstring) (body : JsValue) : PageError + FetchResponse :=
  gateway_response (trace (summarize_route W env (gateway_request authorization body))).

(** ** Observations on the page, used to state properties *)

(** The context in which [doSummarize] asks for the token. *)
Definition started (ctx : Ctx) : Ctx :=
  {| page := {| text := text (page ctx); summary := []; loading := true;
                error := None |};
     localStorage := localStorage ctx; calls := calls ctx |}.

(** How a run ends once [getApiToken] and [fetch] are through. *)
Definition settled (ctx : Ctx) (s : jsstring) (err : option jsstring) : Ctx :=
  {| page := {| text := text (page ctx); summary := s; loading := false;
                error := err |};
     localStorage := localStorage ctx; calls := calls ctx |}.

Definition with_call (ctx : Ctx) (c : Call) : Ctx :=
  {| page := page ctx; localStorage := localStorage ctx; calls := calls ctx ++ [c] |}.

(** A browser whose SDK hands out [tok] and whose [fetch] answers with
    [res]. *)
Definition granting (tok : jsstring) (res : PageError + FetchResponse) : Browser :=
  {| getAccessTokenSilently := fun _ => inr tok;
     loginWithRedirect := fun _ => None;
     fetch := fun _ _ _ => res |}.

Definition typed (t : jsstring) : Ctx :=
  {| page := {| text := t; summary := []; loading := false; error := None |};
     localStorage := ∅; calls := [] |}.

(** The page as it is after a reload, with the storage left behind. *)
Definition reloaded (storage : gmap string jsstring) : Ctx :=
  {| page := initial_page; localStorage := storage; calls := [] |}.

(** A browser whose SDK asks for a login. *)
Definition asking_login : Browser :=
  {| getAccessTokenSilently :=
       fun _ => inl {| pe_error := lit "login_required"; pe_code := [];
                       pe_message := lit "Login required" |};
     loginWithRedirect := fun _ => None;
     fetch := fun _ _ _ => inl (new_Error (lit "Failed to fetch")) |}.

(** The lines of text an export draws, in order. *)
Definition texts (ops : list DocOp) : list jsstring :=
  omap (fun op => match op with DocText line _ _ => Some line | _ => None end) ops.

(** The pages an export adds. *)
Definition pages_added (ops : list DocOp) : nat :=
  length (List.filter (fun op => match op with AddPage => true | _ => false end) ops).

End UI.

Arguments lit : simpl never.
Arguments includes : simpl never.
Arguments trim : simpl never.

(** ** Reading the responses *)

Section Responses.

Variable env : gmap string jsstring.

Lemma gemini_result_fields summary :
  gemini_result env summary !! "summary" = Some summary /\
  gemini_result env summary !! "provider" = Some (lit "gemini") /\
  gemini_result env summary !! "model" = Some (GEMINI_MODEL env) /\
  gemini_result env summary !! "error" = None.
Proof. unfold gemini_result. by simplify_map_eq. Qed.

Lemma openai_result_fields summary :
  openai_result summary !! "summary" = Some summary /\
  openai_result summary !! "provider" = Some (lit "openai") /\
  openai_result summary !! "model" = Some (lit "gpt-4o-mini") /\
  openai_result summary !! "error" = None.
Proof. unfold openai_result. by simplify_map_eq. Qed.

Lemma demo_result_fields text :
  demo_result env text !! "summary" = Some (demo_summary env text) /\
  demo_result env text !! "provider" = Some (lit "demo") /\
  demo_result env text !! "error" = None.
Proof. unfold demo_result. by simplify_map_eq. Qed.

Lemma openai_quota_body_fields :
  openai_quota_body !! "summary" = None /\
  openai_quota_body !! "provider" = Some (lit "openai") /\
  is_Some (openai_quota_body !! "error").
Proof. unfold openai_quota_body. by simplify_map_eq. Qed.

Lemma gemini_unavailable_body_fields :
  gemini_unavailable_body env !! "summary" = None /\
  gemini_unavailable_body env !! "provider" = Some (lit "gemini") /\
  gemini_unavailable_body env !! "model" = Some (GEMINI_MODEL env) /\
  is_Some (gemini_unavailable_body env !! "error").
Proof. unfold gemini_unavailable_body. by simplify_map_eq. Qed.

Lemma invalid_body_fields :
  invalid_body !! "summary" = None /\
  invalid_body !! "provider" = None /\
  is_Some (invalid_body !! "error").
Proof. unfold invalid_body. by simplify_map_eq. Qed.

Lemma server_error_body_fields :
  server_error_body !! "summary" = None /\
  server_error_body !! "provider" = None /\
  is_Some (server_error_body !! "error").
Proof. unfold server_error_body. by simplify_map_eq. Qed.

Lemma unauthorized_body_fields detail :
  unauthorized_body (Some detail) !! "summary" = None /\
  unauthorized_body (Some detail) !! "provider" = None /\
  unauthorized_body (Some detail) !! "error" = Some (lit "Unauthorized") /\
  unauthorized_body (Some detail) !! "detail" = Some detail.
Proof. unfold unauthorized_body, with_field. by simplify_map_eq. Qed.

End Responses.

(** ** Running a request *)

Section Runs.

Variable W : World.
Variable env : gmap string jsstring.

Ltac step :=
  cbn [bind try_catch await emit ret throw return_ res_json call_async
       trace app fst snd].

Lemma JWKS_url jwks :
  (if truthy (AUTH0_AUDIENCE env) && truthy (ISSUER env) then JWKS env else None) = Some jwks ->
  jwks = ISSUER env ++ lit ".well-known/jwks.json".
Proof.
  unfold JWKS. destruct (truthy (AUTH0_AUDIENCE env) && truthy (ISSUER env));
    [|discriminate].
  destruct (truthy (AUTH0_DOMAIN env)); congruence.
Qed.

Lemma route_accepts req :
  authenticates W env req = true ->
  summarize_route W env req
  = (verify_call env req :: trace (summarize_handler W env req), Returned).
Proof.
  unfold authenticates, summarize_route, checkJwtJose, verify_call.
  destruct (if truthy (AUTH0_AUDIENCE env) && truthy (ISSUER env) then JWKS env else None)
    as [jwks|] eqn:Hcfg; [|discriminate].
  apply JWKS_url in Hcfg as <-.
  destruct (scheme_is_not_bearer (scheme_of req) || negb (truthy_opt (token_of req)));
    [discriminate|].
  destruct (jwtVerify W _ _ _ _) as [e|payload]; [discriminate|].
  intros _. step. destruct (summarize_handler W env req) as [t c]. step.
  by rewrite app_nil_r.
Qed.

Lemma route_rejects req :
  authenticates W env req = false ->
  exists pre detail,
    summarize_route W env req
    = (pre ++ [SendJson 401 (unauthorized_body (Some detail))], Returned)
    /\ (pre = [] \/ pre = [verify_call env req]).
Proof.
  unfold authenticates, summarize_route, checkJwtJose, verify_call, unauthorized.
  destruct (if truthy (AUTH0_AUDIENCE env) && truthy (ISSUER env) then JWKS env else None)
    as [jwks|] eqn:Hcfg.
  - apply JWKS_url in Hcfg as <-.
    destruct (scheme_is_not_bearer (scheme_of req) || negb (truthy_opt (token_of req))).
    + intros _. exists [], missing_bearer_token. step. auto.
    + destruct (jwtVerify W _ _ _ _) as [e|payload]; [|discriminate].
      intros _. eexists [_], (message_or_string e). step. auto.
  - intros _. exists [], auth_not_configured. step. auto.
Qed.

(** *** The two provider blocks *)

Lemma try_gemini_unconfigured text :
  api_key env "GEMINI_API_KEY" = None ->
  try_gemini W env text = ([], Normal tt).
Proof. unfold try_gemini. by intros ->. Qed.

Lemma try_gemini_succeeds text key r :
  api_key env "GEMINI_API_KEY" = Some key ->
  generateContent W key (GEMINI_MODEL env) (gemini_prompt text) = inr r ->
  truthy (trim r) = true ->
  try_gemini W env text
  = ([gemini_call env key text; SendJson 200 (gemini_result env (trim r))], Returned).
Proof. unfold try_gemini. intros -> -> H. step. rewrite H. by step. Qed.

Lemma try_gemini_empty text key r :
  api_key env "GEMINI_API_KEY" = Some key ->
  generateContent W key (GEMINI_MODEL env) (gemini_prompt text) = inr r ->
  truthy (trim r) = false ->
  try_gemini W env text = ([gemini_call env key text], Normal tt).
Proof. unfold try_gemini. intros -> -> H. step. rewrite H. by step. Qed.

Lemma try_gemini_throws text key e :
  api_key env "GEMINI_API_KEY" = Some key ->
  generateContent W key (GEMINI_MODEL env) (gemini_prompt text) = inl e ->
  try_gemini W env text
  = ([gemini_call env key text; ConsoleError (lit "[Gemini] error:") (message_or_self e)],
     Normal tt).
Proof. unfold try_gemini. intros -> ->. by step. Qed.

Lemma try_openai_unconfigured text :
  api_key env "OPENAI_API_KEY" = None ->
  try_openai W env text = ([], Normal tt).
Proof. unfold try_openai. by intros ->. Qed.

Lemma try_openai_succeeds text key c :
  api_key env "OPENAI_API_KEY" = Some key ->
  chatCompletionsCreate W key gpt_4o_mini openai_system text = inr c ->
  truthy (default [] (trim <$> c)) = true ->
  try_openai W env text
  = ([openai_call key text; SendJson 200 (openai_result (default [] (trim <$> c)))],
     Returned).
Proof. unfold try_openai. intros -> -> H. step. rewrite H. by step. Qed.

Lemma try_openai_empty text key c :
  api_key env "OPENAI_API_KEY" = Some key ->
  chatCompletionsCreate W key gpt_4o_mini openai_system text = inr c ->
  truthy (default [] (trim <$> c)) = false ->
  try_openai W env text
  = ([openai_call key text;
      ConsoleError (lit "[OpenAI] error:") (message_or_self empty_response_error)],
     Normal tt).
Proof.
  unfold try_openai. intros -> -> H. step. rewrite H. step.
  replace (includes _ quota_marker) with false by (by vm_compute).
  by step.
Qed.

Lemma try_openai_quota text key e :
  api_key env "OPENAI_API_KEY" = Some key ->
  chatCompletionsCreate W key gpt_4o_mini openai_system text = inl e ->
  includes (err_message e) quota_marker = true ->
  try_openai W env text
  = ([openai_call key text;
      ConsoleError (lit "[OpenAI] error:") (message_or_self e);
      SendJson 429 openai_quota_body],
     Returned).
Proof. unfold try_openai. intros -> -> H. step. rewrite H. by step. Qed.

Lemma try_openai_throws text key e :
  api_key env "OPENAI_API_KEY" = Some key ->
  chatCompletionsCreate W key gpt_4o_mini openai_system text = inl e ->
  includes (err_message e) quota_marker = false ->
  try_openai W env text
  = ([openai_call key text;
      ConsoleError (lit "[OpenAI] error:") (message_or_self e)],
     Normal tt).
Proof. unfold try_openai. intros -> -> H. step. rewrite H. by step. Qed.

(** Neither block lets an exception escape. *)
Lemma try_gemini_no_throw text t e : try_gemini W env text <> (t, Thrown e).
Proof.
  destruct (api_key env "GEMINI_API_KEY") as [key|] eqn:Hk.
  - destruct (generateContent W key (GEMINI_MODEL env) (gemini_prompt text))
      as [err|r] eqn:Hg.
    + by rewrite (try_gemini_throws _ _ _ Hk Hg).
    + destruct (truthy (trim r)) eqn:Ht.
      * by rewrite (try_gemini_succeeds _ _ _ Hk Hg Ht).
      * by rewrite (try_gemini_empty _ _ _ Hk Hg Ht).
  - by rewrite (try_gemini_unconfigured _ Hk).
Qed.

Lemma try_openai_no_throw text t e : try_openai W env text <> (t, Thrown e).
Proof.
  destruct (api_key env "OPENAI_API_KEY") as [key|] eqn:Hk.
  - destruct (chatCompletionsCreate W key gpt_4o_mini openai_system text)
      as [err|c] eqn:Hc.
    + destruct (includes (err_message err) quota_marker) eqn:Hq.
      * by rewrite (try_openai_quota _ _ _ Hk Hc Hq).
      * by rewrite (try_openai_throws _ _ _ Hk Hc Hq).
    + destruct (truthy (default [] (trim <$> c))) eqn:Ht.
      * by rewrite (try_openai_succeeds _ _ _ Hk Hc Ht).
      * by rewrite (try_openai_empty _ _ _ Hk Hc Ht).
  - by rewrite (try_openai_unconfigured _ Hk).
Qed.

(** *** The handler *)

(** On a body the schema accepts, the handler is the fallback chain: the
    outer [catch] is never entered. *)
Lemma handler_valid req text :
  Body_safeParse (body req) = inr text ->
  summarize_handler W env req
  = match try_gemini W env text with
    | (tg, Normal _) =>
        match try_openai W env text with
        | (to, Normal _) =>
            (tg ++ to ++ [SendJson 200 (demo_result env text)], Returned)
        | (to, _) => (tg ++ to, Returned)
        end
    | (tg, _) => (tg, Returned)
    end.
Proof.
  intros Hp. unfold summarize_handler, Body_parse. rewrite Hp. step.
  pose proof (try_gemini_no_throw text) as Hg.
  pose proof (try_openai_no_throw text) as Ho.
  destruct (try_gemini W env text) as [tg [[]|e|]]; step.
  - destruct (try_openai W env text) as [to [[]|e|]]; step; try done.
    by destruct (Ho to e).
  - by destruct (Hg tg e).
  - done.
Qed.

(** On a body the schema rejects, the handler answers from the outer
    [catch], by the message of the [ZodError]. *)
Lemma handler_invalid req issues :
  Body_safeParse (body req) = inl issues ->
  summarize_handler W env req
  = (catch_answer env (message_or_string (ZodError W issues)), Returned).
Proof.
  intros Hp. unfold summarize_handler, Body_parse, catch_answer. rewrite Hp. step.
  destruct (gemini_misconfig_message _); [done|].
  by destruct (includes _ at_text).
Qed.

End Runs.



(** ** Facts on strings *)

Section StringFacts.

Lemma startsWith_app (p rest : jsstring) : startsWith (p ++ rest) p = true.
Proof.
  induction p as [|c p IH]; [done|].
  cbn. by rewrite N.eqb_refl.
Qed.

Lemma startsWith_app_l (s p rest : jsstring) :
  startsWith s p = true -> startsWith (s ++ rest) p = true.
Proof.
  revert p. induction s as [|c s IH]; intros [|d p]; cbn; try done.
  intros [-> H]%andb_true_iff. by rewrite IH.
Qed.

Lemma includes_unfold (s p : jsstring) :
  includes s p
  = startsWith s p || match s with [] => false | _ :: s' => includes s' p end.
Proof. by destruct s. Qed.

Lemma includes_prefix (p rest : jsstring) : includes (p ++ rest) p = true.
Proof. by rewrite includes_unfold, startsWith_app. Qed.

Lemma includes_app_r (a s p : jsstring) :
  includes s p = true -> includes (a ++ s) p = true.
Proof.
  intros H. induction a as [|c a IH]; [done|].
  rewrite includes_unfold. cbn [app]. rewrite IH. apply orb_true_r.
Qed.

Lemma includes_app_l (s rest p : jsstring) :
  includes s p = true -> includes (s ++ rest) p = true.
Proof.
  induction s as [|c s IH]; rewrite includes_unfold.
  - rewrite orb_false_r. intros H. destruct p; [|done].
    by rewrite includes_unfold.
  - intros [H|H]%orb_true_iff; rewrite includes_unfold.
    + by rewrite (startsWith_app_l (c :: s) p rest H).
    + cbn [app]. rewrite (IH H). apply orb_true_r.
Qed.

(** The decimal rendering determines the number. *)
Lemma uint_units_inj (d d' : Decimal.uint) : uint_units d = uint_units d' -> d = d'.
Proof.
  revert d'. induction d; intros []; cbn; intros H; try discriminate;
    try reflexivity; f_equal; apply IHd; congruence.
Qed.

Lemma Number_toString_inj (n m : N) : Number_toString n = Number_toString m -> n = m.
Proof.
  intros H%uint_units_inj.
  by rewrite <- (DecimalN.Unsigned.of_to n), <- (DecimalN.Unsigned.of_to m), H.
Qed.

End StringFacts.

(** ** The fallback chain *)

Section Fallback.

Variable W : World.
Variable env : gmap string jsstring.

Lemma responses_app t t' : responses (t ++ t') = responses t ++ responses t'.
Proof. apply List.filter_app. Qed.

Lemma provider_calls_app t t' :
  provider_calls (t ++ t') = provider_calls t ++ provider_calls t'.
Proof. apply List.filter_app. Qed.

Lemma try_gemini_falls_through text :
  gemini_gives_no_summary W env text = true ->
  exists t,
    try_gemini W env text = (t, Normal tt)
    /\ responses t = []
    /\ provider_calls t
       = match api_key env "GEMINI_API_KEY" with
         | Some key => [gemini_call env key text]
         | None => []
         end.
Proof.
  unfold gemini_gives_no_summary.
  destruct (api_key env "GEMINI_API_KEY") as [key|] eqn:Hk.
  - destruct (generateContent W key _ _) as [e|r] eqn:Hg.
    + intros _. eexists. by rewrite (try_gemini_throws W env _ _ _ Hk Hg).
    + intros Ht%negb_true_iff. eexists.
      by rewrite (try_gemini_empty W env _ _ _ Hk Hg Ht).
  - intros _. eexists. by rewrite (try_gemini_unconfigured W env _ Hk).
Qed.

Lemma try_openai_falls_through text :
  openai_gives_no_summary_nor_quota W env text = true ->
  exists t,
    try_openai W env text = (t, Normal tt)
    /\ responses t = []
    /\ provider_calls t
       = match api_key env "OPENAI_API_KEY" with
         | Some key => [openai_call key text]
         | None => []
         end.
Proof.
  unfold openai_gives_no_summary_nor_quota.
  destruct (api_key env "OPENAI_API_KEY") as [key|] eqn:Hk.
  - destruct (chatCompletionsCreate W key _ _ _) as [e|c] eqn:Hc.
    + intros Hq%negb_true_iff. eexists.
      by rewrite (try_openai_throws W env _ _ _ Hk Hc Hq).
    + intros Ht%negb_true_iff. eexists.
      by rewrite (try_openai_empty W env _ _ _ Hk Hc Ht).
  - intros _. eexists. by rewrite (try_openai_unconfigured W env _ Hk).
Qed.

(** The trace of an authenticated request with a valid body. *)
Lemma route_valid req text :
  authenticates W env req = true ->
  Body_safeParse (body req) = inr text ->
  trace (summarize_route W env req)
  = verify_call env req ::
    match try_gemini W env text with
    | (tg, Normal _) =>
        match try_openai W env text with
        | (to, Normal _) => tg ++ to ++ [SendJson 200 (demo_result env text)]
        | (to, _) => tg ++ to
        end
    | (tg, _) => tg
    end.
Proof.
  intros Ha Hp. rewrite (route_accepts W env req Ha), (handler_valid W env req text Hp).
  cbn [trace fst]. f_equal.
  destruct (try_gemini W env text) as [tg [[]| |]]; [|done..].
  by destruct (try_openai W env text) as [to [[]| |]].
Qed.

End Fallback.

(** C2. Adapters run in the fixed order Gemini, OpenAI, and the first
    non-empty summary is the response.  For an authenticated request with a
    valid body and Gemini configured: when Gemini answers with a non-empty
    summary, the single response carries provider "gemini" with the
    configured Gemini model and Gemini is the only provider called; when
    Gemini yields no summary and OpenAI answers with one, the single response
    carries provider "openai" with model "gpt-4o-mini", and the providers
    called are Gemini, then OpenAI. *)
Theorem first_summary_wins W env req text gkey :
  authenticates W env req = true ->
  Body_safeParse (body req) = inr text ->
  api_key env "GEMINI_API_KEY" = Some gkey ->
  (forall r,
      generateContent W gkey (GEMINI_MODEL env) (gemini_prompt text) = inr r ->
      truthy (trim r) = true ->
      responses (trace (summarize_route W env req))
      = [SendJson 200 (gemini_result env (trim r))]
      /\ gemini_result env (trim r) !! "summary" = Some (trim r)
      /\ gemini_result env (trim r) !! "provider" = Some (lit "gemini")
      /\ gemini_result env (trim r) !! "model" = Some (GEMINI_MODEL env)
      /\ provider_calls (trace (summarize_route W env req))
         = [gemini_call env gkey text])
  /\
  (forall okey c,
      gemini_gives_no_summary W env text = true ->
      api_key env "OPENAI_API_KEY" = Some okey ->
      chatCompletionsCreate W okey gpt_4o_mini openai_system text = inr c ->
      truthy (default [] (trim <$> c)) = true ->
      responses (trace (summarize_route W env req))
      = [SendJson 200 (openai_result (default [] (trim <$> c)))]
      /\ openai_result (default [] (trim <$> c)) !! "summary"
         = Some (default [] (trim <$> c))
      /\ openai_result (default [] (trim <$> c)) !! "provider" = Some (lit "openai")
      /\ openai_result (default [] (trim <$> c)) !! "model" = Some (lit "gpt-4o-mini")
      /\ provider_calls (trace (summarize_route W env req))
         = [gemini_call env gkey text; openai_call okey text]).
Proof.
  intros Ha Hp Hk. rewrite (route_valid W env req text Ha Hp). split.
  - intros r Hg Ht. rewrite (try_gemini_succeeds W env _ _ _ Hk Hg Ht).
    destruct (gemini_result_fields env (trim r)) as (? & ? & ? & _). done.
  - intros okey c Hno Hko Hc Ht.
    destruct (try_gemini_falls_through W env text Hno) as (tg & -> & Hr & Hc').
    rewrite Hk in Hc'.
    rewrite (try_openai_succeeds W env _ _ _ Hko Hc Ht).
    destruct (openai_result_fields (default [] (trim <$> c))) as (? & ? & ? & _).
    change (responses (?a :: ?l)) with (responses l).
    change (provider_calls (?a :: ?l)) with (provider_calls l).
    rewrite responses_app, provider_calls_app, Hr, Hc'. done.
Qed.

(** C2 on a deployment with both providers: Gemini answering, and Gemini
    failing with OpenAI answering. *)
Lemma first_summary_wins_witness :
  let env := Sample.both_env in
  let req := Sample.request Sample.bearer (Sample.text_body Sample.notes) in
  (responses (trace (summarize_route (Sample.world Sample.gemini_ok Sample.openai_ok) env req))
   = [SendJson 200 (gemini_result env (lit "* point one"))]
   /\ provider_calls
        (trace (summarize_route (Sample.world Sample.gemini_ok Sample.openai_ok) env req))
      = [gemini_call env (lit "AIza-key") Sample.notes])
  /\
  (responses (trace (summarize_route (Sample.world Sample.no_gemini Sample.openai_ok) env req))
   = [SendJson 200 (openai_result (lit "- point one"))]
   /\ provider_calls
        (trace (summarize_route (Sample.world Sample.no_gemini Sample.openai_ok) env req))
      = [gemini_call env (lit "AIza-key") Sample.notes;
         openai_call (lit "sk-key") Sample.notes]).
Proof.
  cbv zeta. split.
  - destruct (proj1 (first_summary_wins
                       (Sample.world Sample.gemini_ok Sample.openai_ok) Sample.both_env
                       (Sample.request Sample.bearer (Sample.text_body Sample.notes))
                       Sample.notes (lit "AIza-key")
                       ltac:(by vm_compute) eq_refl ltac:(by vm_compute))
                (lit " * point one ") eq_refl ltac:(by vm_compute))
      as (Hr & _ & _ & _ & Hc).
    split; [exact Hr|exact Hc].
  - destruct (proj2 (first_summary_wins
                       (Sample.world Sample.no_gemini Sample.openai_ok) Sample.both_env
                       (Sample.request Sample.bearer (Sample.text_body Sample.notes))
                       Sample.notes (lit "AIza-key")
                       ltac:(by vm_compute) eq_refl ltac:(by vm_compute))
                (lit "sk-key") (Some (lit "- point one"))
                ltac:(by vm_compute) ltac:(by vm_compute) eq_refl ltac:(by vm_compute))
      as (Hr & _ & _ & _ & Hc).
    split; [exact Hr|exact Hc].
Defined.

(** The demo summary names the marker, the Gemini model, the hint and the
    length of the text. *)
Lemma demo_summary_contents env text :
  includes (demo_summary env text) (lit "(Demo) No AI provider responded") = true
  /\ includes (demo_summary env text) (GEMINI_MODEL env) = true
  /\ includes (demo_summary env text) (lit "Tip: set GEMINI_API_KEY") = true
  /\ includes (demo_summary env text)
       (lit "Input length: " ++ Number_toString (len text) ++ lit " chars") = true.
Proof.
  unfold demo_summary. split; [|split; [|split]].
  - apply includes_app_r, includes_app_l. by vm_compute.
  - do 5 apply includes_app_r. apply includes_prefix.
  - do 8 apply includes_app_r. apply includes_app_l. by vm_compute.
  - do 14 apply includes_app_r.
    change (lit " Input length: ") with ([32] ++ lit "Input length: ").
    rewrite <- (app_assoc [32]). apply includes_app_r.
    rewrite <- (app_nil_r (lit " chars")) at 1.
    rewrite !(app_assoc _ _ []). apply includes_prefix.
Qed.

(** C3. For every authenticated request with a valid body in which Gemini
    yields no summary and OpenAI yields neither a summary nor a quota error
    (each possibly because it is not configured), the single response is
    HTTP 200 with provider "demo", and its summary, a function of the
    configuration and the text only, contains the no-provider marker, the
    configured Gemini model, the configuration hint and the decimal length of
    the text. *)
Theorem demo_when_no_provider_answers W env req text :
  authenticates W env req = true ->
  Body_safeParse (body req) = inr text ->
  gemini_gives_no_summary W env text = true ->
  openai_gives_no_summary_nor_quota W env text = true ->
  responses (trace (summarize_route W env req))
  = [SendJson 200 (demo_result env text)]
  /\ demo_result env text !! "provider" = Some (lit "demo")
  /\ demo_result env text !! "summary" = Some (demo_summary env text)
  /\ includes (demo_summary env text) (lit "(Demo) No AI provider responded") = true
  /\ includes (demo_summary env text) (GEMINI_MODEL env) = true
  /\ includes (demo_summary env text) (lit "Tip: set GEMINI_API_KEY") = true
  /\ includes (demo_summary env text)
       (lit "Input length: " ++ Number_toString (len text) ++ lit " chars") = true.
Proof.
  intros Ha Hp Hg Ho. rewrite (route_valid W env req text Ha Hp).
  destruct (try_gemini_falls_through W env text Hg) as (tg & -> & Hrg & _).
  destruct (try_openai_falls_through W env text Ho) as (to & -> & Hro & _).
  destruct (demo_result_fields env text) as (? & ? & _).
  split; [|by auto using demo_summary_contents].
  change (responses (?a :: ?l)) with (responses l).
  by rewrite !responses_app, Hrg, Hro.
Qed.

(** C3 on a deployment whose two providers fail, and on one without
    providers. *)
Lemma demo_when_no_provider_answers_witness :
  let W := Sample.world Sample.no_gemini Sample.no_openai in
  let req := Sample.request Sample.bearer (Sample.text_body Sample.notes) in
  responses (trace (summarize_route W Sample.both_env req))
  = [SendJson 200 (demo_result Sample.both_env Sample.notes)]
  /\ responses (trace (summarize_route W Sample.auth_env req))
     = [SendJson 200 (demo_result Sample.auth_env Sample.notes)]
  /\ includes (demo_summary Sample.auth_env Sample.notes)
       (lit "Input length: 32 chars") = true.
Proof.
  cbv zeta. split; [|split].
  - apply (demo_when_no_provider_answers
             (Sample.world Sample.no_gemini Sample.no_openai) Sample.both_env
             (Sample.request Sample.bearer (Sample.text_body Sample.notes))
             Sample.notes); [by vm_compute|reflexivity|by vm_compute|by vm_compute].
  - apply (demo_when_no_provider_answers
             (Sample.world Sample.no_gemini Sample.no_openai) Sample.auth_env
             (Sample.request Sample.bearer (Sample.text_body Sample.notes))
             Sample.notes); [by vm_compute|reflexivity|by vm_compute|by vm_compute].
  - apply (demo_when_no_provider_answers
             (Sample.world Sample.no_gemini Sample.no_openai) Sample.auth_env
             (Sample.request Sample.bearer (Sample.text_body Sample.notes))
             Sample.notes); [by vm_compute|reflexivity|by vm_compute|by vm_compute].
Defined.




(** ** Validation *)

Section Validation.

(** The schema accepts exactly the objects whose [text] is a string of 1 to
    20000 code units, and hands that string on unchanged. *)
Lemma Body_safeParse_inr b text :
  Body_safeParse b = inr text <->
  exists fields,
    b = JObject fields
    /\ get_field fields (lit "text") = JString text
    /\ 1 <= len text <= 20000.
Proof.
  unfold Body_safeParse, string_min_max. split.
  - destruct b as [| | | | |items|fields]; try discriminate.
    destruct (get_field fields (lit "text")) as [| | | |s| |] eqn:Hf;
      try discriminate.
    destruct (N.ltb_spec (len s) 1), (N.ltb_spec 20000 (len s));
      try discriminate.
    intros [= ->]. exists fields. split; [done|]. split; [done|lia].
  - intros (fields & -> & -> & Hlo & Hhi).
    apply N.ltb_ge in Hlo, Hhi. by rewrite Hlo, Hhi.
Qed.

(** Every other body is rejected with issues. *)
Lemma Body_safeParse_inl fields s :
  get_field fields (lit "text") = JString s ->
  len s = 0 \/ 20000 < len s ->
  exists issues, Body_safeParse (JObject fields) = inl issues.
Proof.
  intros Hf Hlen. destruct (Body_safeParse (JObject fields)) as [issues|t] eqn:Hp;
    [by eexists|].
  apply Body_safeParse_inr in Hp as (fields' & [= <-] & Ht & Hlo & Hhi).
  rewrite Hf in Ht. injection Ht as ->. lia.
Qed.

Lemma Body_safeParse_not_string fields :
  (forall s, get_field fields (lit "text") <> JString s) ->
  exists issues, Body_safeParse (JObject fields) = inl issues.
Proof.
  intros Hf. destruct (Body_safeParse (JObject fields)) as [issues|t] eqn:Hp;
    [by eexists|].
  apply Body_safeParse_inr in Hp as (fields' & [= <-] & Ht & _).
  by destruct (Hf _ Ht).
Qed.

(** With zod 3's rendering, the message of a [ZodError] of the schema is
    not empty, has none of the Gemini markers and does not contain
    [at "text"]. *)
Lemma zod3_message_has_no_marker b issues :
  Body_safeParse b = inl issues ->
  truthy (Zod3.message issues) = true
  /\ gemini_misconfig_message (Zod3.message issues) = false
  /\ includes (Zod3.message issues) at_text = false.
Proof.
  unfold Body_safeParse, string_min_max.
  destruct b as [| | | | |items|fields];
    try (intros [= <-]; by vm_compute).
  destruct (get_field fields (lit "text")) as [| | | |s| |];
    try (intros [= <-]; by vm_compute).
  destruct (len s <? 1), (20000 <? len s); try discriminate;
    intros [= <-]; by vm_compute.
Qed.

Variable W : World.
Variable env : gmap string jsstring.

(** The trace of an authenticated request with a rejected body. *)
Lemma route_invalid req issues :
  authenticates W env req = true ->
  Body_safeParse (body req) = inl issues ->
  trace (summarize_route W env req)
  = verify_call env req :: catch_answer env (message_or_string (ZodError W issues)).
Proof.
  intros Ha Hp.
  by rewrite (route_accepts W env req Ha), (handler_invalid W env req issues Hp).
Qed.

(** When the message of the [ZodError] contains [at "text"] and no Gemini
    marker, a rejected body is answered with the validation error. *)
Lemma invalid_body_400_when_message_matches req issues :
  authenticates W env req = true ->
  Body_safeParse (body req) = inl issues ->
  truthy (zodMessage W issues) = true ->
  gemini_misconfig_message (zodMessage W issues) = false ->
  includes (zodMessage W issues) at_text = true ->
  responses (trace (summarize_route W env req)) = [SendJson 400 invalid_body].
Proof.
  intros Ha Hp Ht Hg Hi. rewrite (route_invalid req issues Ha Hp).
  unfold catch_answer, message_or_string, ZodError. cbn [err_message].
  by rewrite Ht, Hg, Hi.
Qed.

End Validation.

(** C4, where the code departs from it.  With the message zod 3 gives a
    [ZodError], every authenticated request whose body the schema rejects is
    answered with HTTP 500 and the generic server error, after a
    [console.error], and not with HTTP 400; no provider is called. *)
Theorem rejected_body_is_answered_500 W env req issues :
  zodMessage W = Zod3.message ->
  authenticates W env req = true ->
  Body_safeParse (body req) = inl issues ->
  responses (trace (summarize_route W env req)) = [SendJson 500 server_error_body]
  /\ provider_calls (trace (summarize_route W env req)) = [].
Proof.
  intros Hz Ha Hp. rewrite (route_invalid W env req issues Ha Hp).
  destruct (zod3_message_has_no_marker _ _ Hp) as (Ht & Hg & Hi).
  unfold catch_answer, message_or_string, ZodError. cbn [err_message].
  by rewrite Hz, Ht, Hg, Hi.
Qed.

(** The empty text, sent with a valid token, is answered with HTTP 500. *)
Lemma empty_text_is_answered_500 :
  let W := Sample.world Sample.gemini_ok Sample.openai_ok in
  let req := Sample.request Sample.bearer (Sample.text_body []) in
  Body_safeParse (body req) = inl [too_small 1 [lit "text"]]
  /\ responses (trace (summarize_route W Sample.both_env req))
     = [SendJson 500 server_error_body]
  /\ provider_calls (trace (summarize_route W Sample.both_env req)) = [].
Proof.
  cbv zeta. split; [reflexivity|].
  apply (rejected_body_is_answered_500
           (Sample.world Sample.gemini_ok Sample.openai_ok) Sample.both_env
           (Sample.request Sample.bearer (Sample.text_body []))
           [too_small 1 [lit "text"]]).
  - reflexivity.
  - by vm_compute.
  - reflexivity.
Defined.

(** ** One response per request *)

Section Outcomes.

Variable W : World.
Variable env : gmap string jsstring.

(** The Gemini block either goes on without answering, or answers with a
    Gemini result and returns. *)
Lemma try_gemini_cases text :
  (exists t, try_gemini W env text = (t, Normal tt) /\ responses t = [])
  \/ (exists t s, try_gemini W env text = (t, Returned)
                  /\ responses t = [SendJson 200 (gemini_result env s)]).
Proof.
  destruct (api_key env "GEMINI_API_KEY") as [key|] eqn:Hk.
  - destruct (generateContent W key (GEMINI_MODEL env) (gemini_prompt text))
      as [err|r] eqn:Hg.
    + left. rewrite (try_gemini_throws W env _ _ _ Hk Hg). by eexists.
    + destruct (truthy (trim r)) eqn:Ht.
      * right. rewrite (try_gemini_succeeds W env _ _ _ Hk Hg Ht).
        eexists _, (trim r). split; reflexivity.
      * left. rewrite (try_gemini_empty W env _ _ _ Hk Hg Ht). by eexists.
  - left. rewrite (try_gemini_unconfigured W env _ Hk). by eexists.
Qed.

(** The OpenAI block either goes on without answering, or answers with an
    OpenAI result or the quota error and returns. *)
Lemma try_openai_cases text :
  (exists t, try_openai W env text = (t, Normal tt) /\ responses t = [])
  \/ (exists t s, try_openai W env text = (t, Returned)
                  /\ responses t = [SendJson 200 (openai_result s)])
  \/ (exists t, try_openai W env text = (t, Returned)
                /\ responses t = [SendJson 429 openai_quota_body]).
Proof.
  destruct (api_key env "OPENAI_API_KEY") as [key|] eqn:Hk.
  - destruct (chatCompletionsCreate W key gpt_4o_mini openai_system text)
      as [err|c] eqn:Hc.
    + destruct (includes (err_message err) quota_marker) eqn:Hq.
      * right; right. rewrite (try_openai_quota W env _ _ _ Hk Hc Hq). by eexists.
      * left. rewrite (try_openai_throws W env _ _ _ Hk Hc Hq). by eexists.
    + destruct (truthy (default [] (trim <$> c))) eqn:Ht.
      * right; left. rewrite (try_openai_succeeds W env _ _ _ Hk Hc Ht).
        eexists _, (default [] (trim <$> c)). split; reflexivity.
      * left. rewrite (try_openai_empty W env _ _ _ Hk Hc Ht). by eexists.
  - left. rewrite (try_openai_unconfigured W env _ Hk). by eexists.
Qed.

(** The responses of an authenticated request with a valid body: one of
    the two provider results, the OpenAI quota error or the demo. *)
Lemma valid_request_responses req text :
  authenticates W env req = true ->
  Body_safeParse (body req) = inr text ->
  let rs := responses (trace (summarize_route W env req)) in
  (exists s, rs = [SendJson 200 (gemini_result env s)])
  \/ (exists s, rs = [SendJson 200 (openai_result s)])
  \/ rs = [SendJson 429 openai_quota_body]
  \/ rs = [SendJson 200 (demo_result env text)].
Proof.
  intros Ha Hp. cbv zeta. rewrite (route_valid W env req text Ha Hp).
  change (responses (?a :: ?l)) with (responses l).
  destruct (try_gemini_cases text) as [(tg & -> & Hg)|(tg & s & -> & Hg)].
  - destruct (try_openai_cases text)
      as [(to & -> & Ho)|[(to & s & -> & Ho)|(to & -> & Ho)]];
      rewrite !responses_app, Hg, Ho; eauto.
  - eauto.
Qed.

(** The responses of an authenticated request with a rejected body. *)
Lemma invalid_request_responses req issues :
  authenticates W env req = true ->
  Body_safeParse (body req) = inl issues ->
  let rs := responses (trace (summarize_route W env req)) in
  rs = [SendJson 400 (gemini_unavailable_body env)]
  \/ rs = [SendJson 400 invalid_body]
  \/ rs = [SendJson 500 server_error_body].
Proof.
  intros Ha Hp. cbv zeta. rewrite (route_invalid W env req issues Ha Hp).
  unfold catch_answer. destruct (gemini_misconfig_message _); [by left|].
  destruct (includes _ at_text); auto.
Qed.

(** The responses of a request the verifier turns away. *)
Lemma rejected_request_responses req :
  authenticates W env req = false ->
  exists detail,
    responses (trace (summarize_route W env req))
    = [SendJson 401 (unauthorized_body (Some detail))]
    /\ provider_calls (trace (summarize_route W env req)) = [].
Proof.
  intros Ha. destruct (route_rejects W env req Ha) as (pre & detail & -> & Hpre).
  exists detail. by destruct Hpre as [->| ->].
Qed.

End Outcomes.

(** C5, as the code has it.  Every request that reaches the route gets
    exactly one response, and it is a JSON object that holds either a
    summary, with HTTP 200 and a provider tag "gemini", "openai" or "demo",
    or an error; among the errors, the OpenAI quota error (429) carries
    provider "openai", the Gemini-unavailable error (400) provider "gemini",
    and the errors of status 401, 400 (validation) and 500 carry no provider
    tag. *)
Theorem one_response_tagged_unless_plain_error W env req :
  exists status b,
    responses (trace (summarize_route W env req)) = [SendJson status b]
    /\ ((status = 200 /\ is_Some (b !! "summary") /\ b !! "error" = None
         /\ (b !! "provider" = Some (lit "gemini")
             \/ b !! "provider" = Some (lit "openai")
             \/ b !! "provider" = Some (lit "demo")))
        \/ (b !! "summary" = None /\ is_Some (b !! "error")
            /\ ((status = 429 /\ b !! "provider" = Some (lit "openai"))
                \/ (status = 400 /\ b !! "provider" = Some (lit "gemini"))
                \/ ((status = 400 \/ status = 401 \/ status = 500)
                    /\ b !! "provider" = None)))).
Proof.
  destruct (authenticates W env req) eqn:Ha.
  - destruct (Body_safeParse (body req)) as [issues|text] eqn:Hp.
    + destruct (invalid_request_responses W env req issues Ha Hp) as [->|[->| ->]];
        eexists _, _; (split; [reflexivity|]); right.
      * destruct (gemini_unavailable_body_fields env) as (? & ? & _ & ?).
        repeat split; auto.
      * destruct invalid_body_fields as (? & ? & ?).
        split; [done|]. split; [done|]. right; right. auto.
      * destruct server_error_body_fields as (? & ? & ?).
        split; [done|]. split; [done|]. right; right. auto.
    + destruct (valid_request_responses W env req text Ha Hp)
        as [[s ->]|[[s ->]|[->| ->]]];
        eexists _, _; (split; [reflexivity|]).
      * left. destruct (gemini_result_fields env s) as (Hs & ? & _ & ?).
        rewrite Hs. repeat split; eauto.
      * left. destruct (openai_result_fields s) as (Hs & ? & _ & ?).
        rewrite Hs. repeat split; eauto.
      * right. destruct openai_quota_body_fields as (? & ? & ?).
        repeat split; auto.
      * left. destruct (demo_result_fields env text) as (Hs & ? & ?).
        rewrite Hs. repeat split; eauto.
  - destruct (rejected_request_responses W env req Ha) as (detail & -> & _).
    eexists _, _. split; [reflexivity|]. right.
    destruct (unauthorized_body_fields detail) as (? & ? & He & _).
    rewrite He. split; [done|]. split; [eauto|]. right; right. auto.
Qed.

(** C5 fails on the 401 path: a request without an [Authorization] header is
    answered with an object that has no provider tag. *)
Lemma unauthorized_response_has_no_provider :
  let W := Sample.world Sample.gemini_ok Sample.openai_ok in
  let req := Sample.request None (Sample.text_body Sample.notes) in
  exists b,
    responses (trace (summarize_route W Sample.both_env req)) = [SendJson 401 b]
    /\ b !! "provider" = None.
Proof.
  exists (unauthorized_body (Some missing_bearer_token)).
  split; [by vm_compute|].
  by destruct (unauthorized_body_fields missing_bearer_token) as (_ & ? & _).
Qed.

(** ** The token verifier *)

Section Verifier.

Variable W : World.
Variable env : gmap string jsstring.

Lemma missing_header_is_malformed req :
  authorization req = None -> header_malformed req = true.
Proof.
  unfold header_malformed, scheme_of, token_of, auth_parts. by intros ->.
Qed.

Lemma malformed_header_not_authenticated req :
  header_malformed req = true -> authenticates W env req = false.
Proof.
  unfold header_malformed, authenticates. intros ->.
  by destruct (if truthy (AUTH0_AUDIENCE env) && truthy (ISSUER env)
               then JWKS env else None).
Qed.

Lemma auth_configured_JWKS :
  (if truthy (AUTH0_AUDIENCE env) && truthy (ISSUER env) then JWKS env else None)
  = if auth_configured env then Some (ISSUER env ++ lit ".well-known/jwks.json") else None.
Proof.
  unfold auth_configured, JWKS, ISSUER.
  by destruct (truthy (AUTH0_DOMAIN env)), (truthy (AUTH0_AUDIENCE env)).
Qed.

(** The verifier accepts exactly the requests of a configured service whose
    header is well formed and whose token jose accepts. *)
Lemma authenticates_iff req :
  authenticates W env req = true <->
  auth_configured env = true
  /\ header_malformed req = false
  /\ exists payload,
       jwtVerify W (default [] (token_of req))
         (ISSUER env ++ lit ".well-known/jwks.json") (ISSUER env) (AUTH0_AUDIENCE env)
       = inr payload.
Proof.
  unfold authenticates, header_malformed. rewrite auth_configured_JWKS.
  destruct (auth_configured env).
  - destruct (scheme_is_not_bearer (scheme_of req) || negb (truthy_opt (token_of req))).
    + split; [done|]. by intros (_ & ? & _).
    + destruct (jwtVerify W _ _ _ _) as [e|payload].
      * split; [done|]. by intros (_ & _ & ? & ?).
      * split; [|done]. intros _. eauto.
  - split; [done|]. by intros (? & _).
Qed.

(** A malformed header is turned away before jose is asked. *)
Lemma malformed_header_run req :
  header_malformed req = true ->
  summarize_route W env req
  = ([SendJson 401
        (unauthorized_body
           (Some (if auth_configured env then missing_bearer_token
                  else auth_not_configured)))],
     Returned).
Proof.
  unfold header_malformed, summarize_route, checkJwtJose. intros H.
  rewrite auth_configured_JWKS. destruct (auth_configured env); [|done].
  by rewrite H.
Qed.

(** Without configuration every request is turned away at once. *)
Lemma unconfigured_run req :
  auth_configured env = false ->
  summarize_route W env req
  = ([SendJson 401 (unauthorized_body (Some auth_not_configured))], Returned).
Proof.
  unfold summarize_route, checkJwtJose. intros H.
  by rewrite auth_configured_JWKS, H.
Qed.

End Verifier.

(** ** Requests the body parser turns away *)

Section Parser.

Variable W : World.
Variable env : gmap string jsstring.

(** A JSON-typed body over the ceiling is answered by the body parser and
    never reaches the route. *)
Lemma oversized_run req :
  content_type_json req = true ->
  body_limit < N.of_nat (length (raw_body req)) ->
  app_post_summarize W env req = ([SendError 413], Normal tt).
Proof.
  intros Hct Hlen.
  unfold app_post_summarize. cbn [run_stack]. unfold cors_middleware, express_json.
  rewrite Hct. cbn [negb orb].
  destruct (raw_body req) as [|x l] eqn:Hb; [cbn in Hlen; unfold body_limit in Hlen; lia|].
  rewrite bool_decide_eq_false_2 by done.
  apply N.ltb_lt in Hlen. by rewrite Hlen.
Qed.

(** So is a JSON-typed body within the ceiling that does not parse. *)
Lemma unparsable_run req :
  content_type_json req = true ->
  raw_body req <> [] ->
  N.of_nat (length (raw_body req)) <= body_limit ->
  JSON_parse W (raw_body req) = None ->
  app_post_summarize W env req = ([SendError 400], Normal tt).
Proof.
  intros Hct Hne Hlen Hparse.
  unfold app_post_summarize. cbn [run_stack]. unfold cors_middleware, express_json.
  rewrite Hct. cbn [negb orb].
  rewrite bool_decide_eq_false_2 by done.
  apply N.ltb_ge in Hlen. by rewrite Hlen, Hparse.
Qed.

End Parser.

(** C6, for the requests that reach the route.  A request whose
    [Authorization] header is missing or malformed (no bearer scheme or no
    token) is answered with HTTP 401 alone, and neither jose nor a provider
    is called; so is, but for the call to jose, every request the verifier
    does not accept; and a request whose body the schema rejects gets one
    response that is not a summary, with no provider called. *)
Theorem no_provider_without_auth_and_valid_body W env req :
  (header_malformed req = true ->
   (exists detail,
       responses (trace (summarize_route W env req))
       = [SendJson 401 (unauthorized_body (Some detail))])
   /\ provider_calls (trace (summarize_route W env req)) = []
   /\ verifier_calls (trace (summarize_route W env req)) = [])
  /\
  (authenticates W env req = false ->
   (exists detail,
       responses (trace (summarize_route W env req))
       = [SendJson 401 (unauthorized_body (Some detail))])
   /\ provider_calls (trace (summarize_route W env req)) = [])
  /\
  (forall issues,
      Body_safeParse (body req) = inl issues ->
      (exists status b,
          responses (trace (summarize_route W env req)) = [SendJson status b]
          /\ (status = 400 \/ status = 401 \/ status = 500)
          /\ b !! "summary" = None)
      /\ provider_calls (trace (summarize_route W env req)) = []).
Proof.
  split; [|split].
  - intros H. rewrite (malformed_header_run W env req H). eauto.
  - intros Ha. destruct (rejected_request_responses W env req Ha) as (d & -> & ->).
    eauto.
  - intros issues Hp. destruct (authenticates W env req) eqn:Ha.
    + split.
      * destruct (invalid_request_responses W env req issues Ha Hp) as [->|[->| ->]];
          eexists _, _; (split; [reflexivity|]).
        -- destruct (gemini_unavailable_body_fields env) as (? & _). auto.
        -- destruct invalid_body_fields as (? & _). auto.
        -- destruct server_error_body_fields as (? & _). auto.
      * rewrite (route_invalid W env req issues Ha Hp). unfold catch_answer.
        destruct (gemini_misconfig_message _); [done|].
        by destruct (includes _ at_text).
    + destruct (rejected_request_responses W env req Ha) as (d & -> & ->).
      split; [|done]. eexists _, _. split; [reflexivity|].
      destruct (unauthorized_body_fields d) as (? & _). auto.
Qed.

(** C6 on a request without header, on a forged token and on a body
    without text. *)
Lemma no_provider_without_auth_and_valid_body_witness :
  let W := Sample.world Sample.gemini_ok Sample.openai_ok in
  let env := Sample.both_env in
  (let req := Sample.request None (Sample.text_body Sample.notes) in
   header_malformed req = true
   /\ provider_calls (trace (summarize_route W env req)) = []
   /\ verifier_calls (trace (summarize_route W env req)) = [])
  /\
  (let req := Sample.request (Some (lit "Bearer forged")) (Sample.text_body Sample.notes) in
   authenticates W env req = false
   /\ provider_calls (trace (summarize_route W env req)) = [])
  /\
  (let req := Sample.request Sample.bearer (JObject []) in
   Body_safeParse (body req) = inl [invalid_type zt_string zt_undefined [lit "text"]]
   /\ provider_calls (trace (summarize_route W env req)) = []).
Proof.
  cbv zeta. split; [|split].
  - split; [by vm_compute|].
    apply (proj1 (no_provider_without_auth_and_valid_body
                    (Sample.world Sample.gemini_ok Sample.openai_ok) Sample.both_env
                    (Sample.request None (Sample.text_body Sample.notes)))).
    by vm_compute.
  - split; [by vm_compute|].
    apply (proj1 (proj2 (no_provider_without_auth_and_valid_body
                    (Sample.world Sample.gemini_ok Sample.openai_ok) Sample.both_env
                    (Sample.request (Some (lit "Bearer forged"))
                       (Sample.text_body Sample.notes))))).
    by vm_compute.
  - split; [reflexivity|].
    apply (proj2 (proj2 (no_provider_without_auth_and_valid_body
                    (Sample.world Sample.gemini_ok Sample.openai_ok) Sample.both_env
                    (Sample.request Sample.bearer (JObject []))))
             [invalid_type zt_string zt_undefined [lit "text"]]).
    reflexivity.
Defined.

(** C6 fails for a request the body parser turns away before the route: a
    request without [Authorization] header whose JSON-typed body has
    1048577 bytes is answered with the parser's 413, not with 401. *)
Lemma missing_header_with_oversized_body_gets_413 :
  let W := Sample.world Sample.gemini_ok Sample.openai_ok in
  let req :=
    {| authorization := None; content_type_json := true;
       raw_body := repeat Byte.x61 (N.to_nat 1048577); body := JUndefined |} in
  header_malformed req = true
  /\ app_post_summarize W Sample.both_env req = ([SendError 413], Normal tt)
  /\ ~ (exists b, In (SendJson 401 b) (trace (app_post_summarize W Sample.both_env req))).
Proof.
  cbv zeta.
  assert (app_post_summarize (Sample.world Sample.gemini_ok Sample.openai_ok)
            Sample.both_env
            {| authorization := None; content_type_json := true;
               raw_body := repeat Byte.x61 (N.to_nat 1048577); body := JUndefined |}
          = ([SendError 413], Normal tt)) as ->.
  { apply oversized_run; [reflexivity|].
    cbn [raw_body]. rewrite repeat_length, N2Nat.id. unfold body_limit. lia. }
  split; [by apply missing_header_is_malformed|]. split; [reflexivity|].
  intros [b [H|[]]]. discriminate H.
Qed.

(** C7, where the code departs from it.  When Gemini throws an error whose
    message has one of the markers of a misconfiguration, the inner [catch]
    logs it and goes on: for an authenticated request with a valid body no
    response has status 400, and when OpenAI is not configured the single
    response is the demo with HTTP 200. *)
Theorem gemini_misconfiguration_is_swallowed W env req text gkey e :
  authenticates W env req = true ->
  Body_safeParse (body req) = inr text ->
  api_key env "GEMINI_API_KEY" = Some gkey ->
  generateContent W gkey (GEMINI_MODEL env) (gemini_prompt text) = inl e ->
  gemini_misconfig_message (message_or_string e) = true ->
  (forall status b,
      In (SendJson status b) (responses (trace (summarize_route W env req))) ->
      status <> 400)
  /\ (api_key env "OPENAI_API_KEY" = None ->
      responses (trace (summarize_route W env req))
      = [SendJson 200 (demo_result env text)]).
Proof.
  intros Ha Hp Hk Hg _. split.
  - intros status b.
    destruct (valid_request_responses W env req text Ha Hp)
      as [[s ->]|[[s ->]|[->| ->]]]; intros [[= <- _]|[]]; done.
  - intros Hko. rewrite (route_valid W env req text Ha Hp).
    rewrite (try_gemini_throws W env _ _ _ Hk Hg).
    by rewrite (try_openai_unconfigured W env _ Hko).
Qed.

(** An unknown Gemini model, with Gemini the only provider, is answered
    with the demo and HTTP 200. *)
Lemma unknown_gemini_model_gets_demo :
  let W := Sample.world Sample.gemini_unknown_model Sample.no_openai in
  let env := Sample.gemini_env in
  let req := Sample.request Sample.bearer (Sample.text_body Sample.notes) in
  (forall status b,
      In (SendJson status b) (responses (trace (summarize_route W env req))) ->
      status <> 400)
  /\ responses (trace (summarize_route W env req))
     = [SendJson 200 (demo_result env Sample.notes)].
Proof.
  cbv zeta.
  destruct (gemini_misconfiguration_is_swallowed
              (Sample.world Sample.gemini_unknown_model Sample.no_openai)
              Sample.gemini_env
              (Sample.request Sample.bearer (Sample.text_body Sample.notes))
              Sample.notes (lit "AIza-key")
              (Error (lit "[404 Not Found] models/gemini-pro is not found for API version v1beta, or is not supported for generateContent. Call ListModels to see the list of available models and their supported methods.")))
    as [H400 Hdemo].
  - by vm_compute.
  - reflexivity.
  - by vm_compute.
  - reflexivity.
  - by vm_compute.
  - split; [exact H400|]. apply Hdemo. by vm_compute.
Defined.

(** C8, as the code has it.  A request whose header has no bearer scheme or
    no token is answered at once with HTTP 401 and error "Unauthorized",
    before jose is asked; when auth is configured the detail is "Missing
    Bearer token" in both cases. *)
Theorem malformed_header_is_unauthorized W env req :
  header_malformed req = true ->
  (exists detail,
      summarize_route W env req
      = ([SendJson 401 (unauthorized_body (Some detail))], Returned)
      /\ unauthorized_body (Some detail) !! "error" = Some (lit "Unauthorized"))
  /\ (auth_configured env = true ->
      summarize_route W env req
      = ([SendJson 401 (unauthorized_body (Some missing_bearer_token))], Returned)
      /\ unauthorized_body (Some missing_bearer_token) !! "detail"
         = Some (lit "Missing Bearer token")).
Proof.
  intros H. rewrite (malformed_header_run W env req H). split.
  - eexists. split; [reflexivity|].
    by destruct (unauthorized_body_fields
                   (if auth_configured env then missing_bearer_token
                    else auth_not_configured)) as (_ & _ & ? & _).
  - intros ->. split; [reflexivity|].
    by destruct (unauthorized_body_fields missing_bearer_token) as (_ & _ & _ & ?).
Qed.

(** C8 on a header with the Basic scheme. *)
Lemma malformed_header_is_unauthorized_witness :
  let W := Sample.world Sample.gemini_ok Sample.openai_ok in
  let req := Sample.request (Some (lit "Basic dXNlcjpwdw==")) (Sample.text_body Sample.notes) in
  header_malformed req = true
  /\ auth_configured Sample.both_env = true
  /\ summarize_route W Sample.both_env req
     = ([SendJson 401 (unauthorized_body (Some missing_bearer_token))], Returned).
Proof.
  cbv zeta. split; [by vm_compute|]. split; [by vm_compute|].
  apply (proj2 (malformed_header_is_unauthorized
                  (Sample.world Sample.gemini_ok Sample.openai_ok) Sample.both_env
                  (Sample.request (Some (lit "Basic dXNlcjpwdw=="))
                     (Sample.text_body Sample.notes))
                  ltac:(by vm_compute))).
  by vm_compute.
Defined.

(** C8 fails on the detail: a header with a wrong scheme and a header with
    the bearer scheme but no token get the same response, detail
    included. *)
Lemma wrong_scheme_and_missing_token_same_detail :
  let W := Sample.world Sample.gemini_ok Sample.openai_ok in
  let env := Sample.both_env in
  let wrong_scheme :=
    Sample.request (Some (lit "Basic " ++ Sample.token)) (Sample.text_body Sample.notes) in
  let no_token :=
    Sample.request (Some (lit "Bearer")) (Sample.text_body Sample.notes) in
  (scheme_is_not_bearer (scheme_of wrong_scheme) = true
   /\ truthy_opt (token_of wrong_scheme) = true)
  /\ (scheme_is_not_bearer (scheme_of no_token) = false
      /\ truthy_opt (token_of no_token) = false)
  /\ summarize_route W env wrong_scheme = summarize_route W env no_token
  /\ responses (trace (summarize_route W env no_token))
     = [SendJson 401 (unauthorized_body (Some (lit "Missing Bearer token")))].
Proof. cbv zeta. repeat split; by vm_compute. Qed.

(** C9. When the domain or the audience is not set (missing or empty
    AUTH0_* variables), every request that reaches the route is answered
    with HTTP 401, error "Unauthorized" and the detail that auth is not
    configured, and nothing else happens: no call to jose, no validation, no
    provider. *)
Theorem unconfigured_auth_fails_closed W env req :
  AUTH0_DOMAIN env = [] \/ AUTH0_AUDIENCE env = [] ->
  summarize_route W env req
  = ([SendJson 401 (unauthorized_body (Some auth_not_configured))], Returned)
  /\ unauthorized_body (Some auth_not_configured) !! "error" = Some (lit "Unauthorized")
  /\ unauthorized_body (Some auth_not_configured) !! "detail"
     = Some (lit "Auth not configured on server (missing AUTH0_* envs).")
  /\ provider_calls (trace (summarize_route W env req)) = []
  /\ verifier_calls (trace (summarize_route W env req)) = [].
Proof.
  intros H.
  assert (auth_configured env = false) as Hc.
  { unfold auth_configured. destruct H as [-> | ->]; [done|apply andb_false_r]. }
  rewrite (unconfigured_run W env req Hc).
  destruct (unauthorized_body_fields auth_not_configured) as (_ & _ & ? & ?).
  done.
Qed.

(** C9 on a deployment without AUTH0_* variables. *)
Lemma unconfigured_auth_fails_closed_witness :
  let W := Sample.world Sample.gemini_ok Sample.openai_ok in
  let env : gmap string jsstring := {["GEMINI_API_KEY" := lit "AIza-key"]} in
  let req := Sample.request Sample.bearer (Sample.text_body Sample.notes) in
  AUTH0_DOMAIN env = []
  /\ summarize_route W env req
     = ([SendJson 401 (unauthorized_body (Some auth_not_configured))], Returned).
Proof.
  cbv zeta. split; [by vm_compute|].
  apply (unconfigured_auth_fails_closed
           (Sample.world Sample.gemini_ok Sample.openai_ok)
           {["GEMINI_API_KEY" := lit "AIza-key"]}
           (Sample.request Sample.bearer (Sample.text_body Sample.notes))).
  left. by vm_compute.
Defined.

(** C9 fails for a request the body parser turns away before the route: on
    a service without AUTH0_* variables a JSON-typed body that does not
    parse is answered with the parser's 400, not with 401 and the detail
    that auth is not configured. *)
Lemma unconfigured_service_answers_400_to_broken_json :
  let W := Sample.world Sample.gemini_ok Sample.openai_ok in
  let env : gmap string jsstring := {["GEMINI_API_KEY" := lit "AIza-key"]} in
  let req :=
    {| authorization := Sample.bearer; content_type_json := true;
       raw_body := [Byte.x7b; Byte.x22; Byte.x74; Byte.x65; Byte.x78; Byte.x74;
                    Byte.x22; Byte.x3a];
       body := JUndefined |} in
  AUTH0_DOMAIN env = []
  /\ AUTH0_AUDIENCE env = []
  /\ app_post_summarize W env req = ([SendError 400], Normal tt)
  /\ ~ (exists b, In (SendJson 401 b) (trace (app_post_summarize W env req))).
Proof.
  cbv zeta.
  assert (app_post_summarize (Sample.world Sample.gemini_ok Sample.openai_ok)
            {["GEMINI_API_KEY" := lit "AIza-key"]}
            {| authorization := Sample.bearer; content_type_json := true;
               raw_body := [Byte.x7b; Byte.x22; Byte.x74; Byte.x65; Byte.x78; Byte.x74;
                            Byte.x22; Byte.x3a];
               body := JUndefined |}
          = ([SendError 400], Normal tt)) as ->.
  { apply unparsable_run; [reflexivity|done|by vm_compute|reflexivity]. }
  split; [by vm_compute|]. split; [by vm_compute|]. split; [reflexivity|].
  intros [b [H|[]]]. discriminate H.
Qed.

(** C10. A JSON-typed body of more than 1 MB is turned away by the body
    parser, which runs before the route: the only event of the request is the
    parser's error response with status 413, so jose is not asked, the schema
    is not run, no provider is called and the response is not one of the
    handler's, the validation error included. *)
Theorem oversized_body_stops_at_parser W env req :
  content_type_json req = true ->
  body_limit < N.of_nat (length (raw_body req)) ->
  app_post_summarize W env req = ([SendError 413], Normal tt)
  /\ verifier_calls (trace (app_post_summarize W env req)) = []
  /\ provider_calls (trace (app_post_summarize W env req)) = []
  /\ (forall status b, ~ In (SendJson status b) (trace (app_post_summarize W env req))).
Proof.
  intros Hct Hlen.
  assert (app_post_summarize W env req = ([SendError 413], Normal tt)) as ->.
  { unfold app_post_summarize. cbn [run_stack]. unfold cors_middleware, express_json.
    rewrite Hct. cbn [negb orb].
    destruct (raw_body req) as [|x l] eqn:Hb; [cbn in Hlen; unfold body_limit in Hlen; lia|].
    rewrite bool_decide_eq_false_2 by done.
    apply N.ltb_lt in Hlen. by rewrite Hlen. }
  repeat split; try done. intros status b [?|[]]. discriminate.
Qed.

(** C10 on a body of 1048577 bytes. *)
Lemma oversized_body_stops_at_parser_witness :
  let W := Sample.world Sample.gemini_ok Sample.openai_ok in
  let req :=
    {| authorization := Sample.bearer; content_type_json := true;
       raw_body := repeat Byte.x61 (N.to_nat 1048577); body := JUndefined |} in
  app_post_summarize W Sample.both_env req = ([SendError 413], Normal tt).
Proof.
  cbv zeta.
  apply (oversized_body_stops_at_parser
           (Sample.world Sample.gemini_ok Sample.openai_ok) Sample.both_env
           {| authorization := Sample.bearer; content_type_json := true;
              raw_body := repeat Byte.x61 (N.to_nat 1048577); body := JUndefined |}).
  - reflexivity.
  - cbn [raw_body]. rewrite repeat_length, N2Nat.id. unfold body_limit. lia.
Defined.

(** ** Further properties of the gateway *)

(** Case analysis on the Gemini block, leaving its explicit run in the
    goal. *)
Ltac gemini_cases W env text :=
  let key := fresh "gkey" in
  let Hk := fresh "Hgk" in
  let Hg := fresh "Hg" in
  let Ht := fresh "Hgt" in
  let e := fresh "gerr" in
  let r := fresh "gtext" in
  destruct (api_key env "GEMINI_API_KEY") as [key|] eqn:Hk;
  [ destruct (generateContent W key (GEMINI_MODEL env) (gemini_prompt text))
      as [e|r] eqn:Hg;
    [ rewrite (try_gemini_throws W env _ _ _ Hk Hg)
    | destruct (truthy (trim r)) eqn:Ht;
      [ rewrite (try_gemini_succeeds W env _ _ _ Hk Hg Ht)
      | rewrite (try_gemini_empty W env _ _ _ Hk Hg Ht) ] ]
  | rewrite (try_gemini_unconfigured W env _ Hk) ].

(** Case analysis on the OpenAI block. *)
Ltac openai_cases W env text :=
  let key := fresh "okey" in
  let Hk := fresh "Hok" in
  let Hc := fresh "Hc" in
  let Ht := fresh "Hot" in
  let Hq := fresh "Hq" in
  let e := fresh "oerr" in
  let c := fresh "content" in
  destruct (api_key env "OPENAI_API_KEY") as [key|] eqn:Hk;
  [ destruct (chatCompletionsCreate W key gpt_4o_mini openai_system text)
      as [e|c] eqn:Hc;
    [ destruct (includes (err_message e) quota_marker) eqn:Hq;
      [ rewrite (try_openai_quota W env _ _ _ Hk Hc Hq)
      | rewrite (try_openai_throws W env _ _ _ Hk Hc Hq) ]
    | destruct (truthy (default [] (trim <$> c))) eqn:Ht;
      [ rewrite (try_openai_succeeds W env _ _ _ Hk Hc Ht)
      | rewrite (try_openai_empty W env _ _ _ Hk Hc Ht) ] ]
  | rewrite (try_openai_unconfigured W env _ Hk) ].

Section Gateway.

Variable W : World.
Variable env : gmap string jsstring.

(** The handler never asks jose. *)
Lemma handler_no_verifier_call req :
  verifier_calls (trace (summarize_handler W env req)) = [].
Proof.
  destruct (Body_safeParse (body req)) as [issues|text] eqn:Hp.
  - rewrite (handler_invalid W env req issues Hp). unfold catch_answer. cbn [trace fst].
    destruct (gemini_misconfig_message _); [done|].
    by destruct (includes _ at_text).
  - rewrite (handler_valid W env req text Hp).
    gemini_cases W env text; try done; openai_cases W env text; done.
Qed.


(** Every provider call of the route is made with the key found in the
    environment for that provider. *)
Lemma provider_call_has_key req ev :
  In ev (provider_calls (trace (summarize_route W env req))) ->
  match ev with
  | GenerateContent key _ _ => api_key env "GEMINI_API_KEY" = Some key
  | ChatCompletionsCreate key _ _ _ => api_key env "OPENAI_API_KEY" = Some key
  | _ => False
  end.
Proof.
  destruct (authenticates W env req) eqn:Ha.
  - destruct (Body_safeParse (body req)) as [issues|text] eqn:Hp.
    + rewrite (route_invalid W env req issues Ha Hp). unfold catch_answer.
      destruct (gemini_misconfig_message _); [done|].
      by destruct (includes _ at_text).
    + rewrite (route_valid W env req text Ha Hp).
      gemini_cases W env text; try (openai_cases W env text);
        cbn [trace fst provider_calls filter is_provider_call app In];
        intros Hin; repeat (destruct Hin as [<-|Hin]; [done|]); done.
  - destruct (rejected_request_responses W env req Ha) as (d & _ & ->). done.
Qed.

(** The run of the middleware when jose rejects the token. *)
Lemma rejected_token_run req e :
  auth_configured env = true ->
  header_malformed req = false ->
  jwtVerify W (default [] (token_of req))
    (ISSUER env ++ lit ".well-known/jwks.json") (ISSUER env) (AUTH0_AUDIENCE env)
  = inl e ->
  summarize_route W env req
  = ([verify_call env req;
      SendJson 401 (unauthorized_body (Some (message_or_string e)))],
     Returned).
Proof.
  intros Hc Hh Hj.
  unfold summarize_route, checkJwtJose, verify_call.
  rewrite auth_configured_JWKS, Hc.
  unfold header_malformed in Hh. rewrite Hh, Hj. reflexivity.
Qed.



End Gateway.


(** X2. The providers called for an authenticated request with a valid
    body are exactly these, in this order: Gemini, when it has a key, with
    the configured model and the prompt built from the unchanged text; then
    OpenAI, with "gpt-4o-mini" and the unchanged text, when it has a key and
    Gemini produced no summary, that is when Gemini has no key, or its call
    threw, or its answer trims to nothing.  Each is called at most once. *)
Theorem provider_calls_of_valid_request W env req text :
  authenticates W env req = true ->
  Body_safeParse (body req) = inr text ->
  let openai :=
    match api_key env "OPENAI_API_KEY" with
    | Some key => [ChatCompletionsCreate key (lit "gpt-4o-mini") openai_system text]
    | None => []
    end in
  provider_calls (trace (summarize_route W env req))
  = match api_key env "GEMINI_API_KEY" with
    | None => openai
    | Some key =>
        GenerateContent key (GEMINI_MODEL env) (gemini_prompt text) ::
        match generateContent W key (GEMINI_MODEL env) (gemini_prompt text) with
        | inl _ => openai
        | inr r => if truthy (trim r) then [] else openai
        end
    end.
Proof.
  intros Ha Hp. cbv zeta. rewrite (route_valid W env req text Ha Hp).
  gemini_cases W env text; try done; openai_cases W env text; done.
Qed.

(** X2 with both providers configured and Gemini throwing, and with OpenAI
    alone. *)
Lemma provider_calls_of_valid_request_witness :
  let req := Sample.request Sample.bearer (Sample.text_body Sample.notes) in
  provider_calls
    (trace (summarize_route (Sample.world Sample.no_gemini Sample.openai_ok)
              Sample.both_env req))
  = [GenerateContent (lit "AIza-key") (lit "gemini-2.0-flash")
       (gemini_prompt Sample.notes);
     ChatCompletionsCreate (lit "sk-key") (lit "gpt-4o-mini") openai_system
       Sample.notes]
  /\ provider_calls
       (trace (summarize_route (Sample.world Sample.gemini_ok Sample.openai_ok)
                 Sample.openai_env req))
     = [ChatCompletionsCreate (lit "sk-key") (lit "gpt-4o-mini") openai_system
          Sample.notes].
Proof.
  cbv zeta. split.
  - rewrite (provider_calls_of_valid_request
               (Sample.world Sample.no_gemini Sample.openai_ok) Sample.both_env
               (Sample.request Sample.bearer (Sample.text_body Sample.notes))
               Sample.notes ltac:(by vm_compute) eq_refl).
    by vm_compute.
  - rewrite (provider_calls_of_valid_request
               (Sample.world Sample.gemini_ok Sample.openai_ok) Sample.openai_env
               (Sample.request Sample.bearer (Sample.text_body Sample.notes))
               Sample.notes ltac:(by vm_compute) eq_refl).
    by vm_compute.
Defined.

(** X3. A provider whose key variable is unset or empty is never called,
    whatever the request. *)
Theorem provider_without_key_is_never_called W env req :
  (default [] (env !! "GEMINI_API_KEY") = [] ->
   forall key model prompt,
     ~ In (GenerateContent key model prompt) (trace (summarize_route W env req)))
  /\
  (default [] (env !! "OPENAI_API_KEY") = [] ->
   forall key model system user,
     ~ In (ChatCompletionsCreate key model system user)
          (trace (summarize_route W env req))).
Proof.
  assert (forall k, default [] (env !! k) = [] -> api_key env k = None) as Hkey.
  { intros k. unfold api_key. destruct (env !! k) as [[|]|]; done. }
  assert (forall ev, In ev (trace (summarize_route W env req)) ->
                     is_provider_call ev = true ->
                     In ev (provider_calls (trace (summarize_route W env req))))
    as Hin.
  { intros ev Hev Hp. apply List.filter_In. auto. }
  split; intros Hk%Hkey **; intros Hev; apply Hin in Hev; try done;
    apply provider_call_has_key in Hev; congruence.
Qed.

(** X3 on a deployment whose OpenAI key is the empty string. *)
Lemma provider_without_key_is_never_called_witness :
  let env := <["OPENAI_API_KEY" := []]> Sample.gemini_env in
  default [] (env !! "OPENAI_API_KEY") = []
  /\ ~ In (ChatCompletionsCreate [] (lit "gpt-4o-mini") openai_system Sample.notes)
          (trace (summarize_route (Sample.world Sample.no_gemini Sample.openai_ok) env
                    (Sample.request Sample.bearer (Sample.text_body Sample.notes)))).
Proof.
  cbv zeta. split; [by vm_compute|].
  apply (proj2 (provider_without_key_is_never_called
                  (Sample.world Sample.no_gemini Sample.openai_ok)
                  (<["OPENAI_API_KEY" := []]> Sample.gemini_env)
                  (Sample.request Sample.bearer (Sample.text_body Sample.notes)))).
  by vm_compute.
Defined.

(** X4. When the service is configured and the header is well formed but
    jose rejects the token, the run is the call to jose followed by the
    single response 401 whose detail is the message of jose's error; the
    body is not validated and no provider is called. *)
Theorem rejected_token_detail W env req e :
  auth_configured env = true ->
  header_malformed req = false ->
  jwtVerify W (default [] (token_of req))
    (ISSUER env ++ lit ".well-known/jwks.json") (ISSUER env) (AUTH0_AUDIENCE env)
  = inl e ->
  summarize_route W env req
  = ([verify_call env req;
      SendJson 401 (unauthorized_body (Some (message_or_string e)))],
     Returned)
  /\ unauthorized_body (Some (message_or_string e)) !! "detail"
     = Some (message_or_string e).
Proof.
  intros Hc Hh Hj. split.
  - by apply rejected_token_run.
  - by destruct (unauthorized_body_fields (message_or_string e)) as (_ & _ & _ & ?).
Qed.

(** X4 on a forged token. *)
Lemma rejected_token_detail_witness :
  let req := Sample.request (Some (lit "Bearer forged")) (Sample.text_body Sample.notes) in
  responses (trace (summarize_route (Sample.world Sample.gemini_ok Sample.openai_ok)
                      Sample.both_env req))
  = [SendJson 401 (unauthorized_body (Some (lit "Invalid Compact JWS")))].
Proof.
  cbv zeta.
  rewrite (proj1 (rejected_token_detail
                    (Sample.world Sample.gemini_ok Sample.openai_ok) Sample.both_env
                    (Sample.request (Some (lit "Bearer forged"))
                       (Sample.text_body Sample.notes))
                    (mkError (lit "JWSInvalid") (lit "Invalid Compact JWS"))
                    ltac:(by vm_compute) ltac:(by vm_compute) ltac:(by vm_compute))).
  reflexivity.
Defined.

(** ** The header and the strings of a summary *)

Section HeaderAndTrim.

Lemma or_else_nil (s : jsstring) : or_else s [] = s.
Proof. by destruct s. Qed.

Lemma auth_parts_of req (h : jsstring) :
  authorization req = Some h -> auth_parts req = split h 32.
Proof. unfold auth_parts. intros ->. apply (f_equal (fun s => split s 32)), or_else_nil. Qed.

(** Splitting at the first separator. *)
Lemma split_from_app (sep : N) (a b cur : jsstring) :
  sep ∉ a ->
  split_from sep (a ++ sep :: b) cur = (rev cur ++ a) :: split_from sep b [].
Proof.
  revert cur. induction a as [|c a IH]; intros cur Ha; cbn.
  - by rewrite N.eqb_refl, app_nil_r.
  - apply not_elem_of_cons in Ha as [Hc Ha].
    destruct (N.eqb_spec c sep) as [->|_]; [done|].
    rewrite (IH (c :: cur) Ha). cbn. by rewrite <- app_assoc.
Qed.

Lemma split_from_no_sep (sep : N) (a cur : jsstring) :
  sep ∉ a -> split_from sep a cur = [rev cur ++ a].
Proof.
  revert cur. induction a as [|c a IH]; intros cur Ha; cbn.
  - by rewrite app_nil_r.
  - apply not_elem_of_cons in Ha as [Hc Ha].
    destruct (N.eqb_spec c sep) as [->|_]; [done|].
    rewrite (IH (c :: cur) Ha). cbn. by rewrite <- app_assoc.
Qed.

Lemma trimStart_keeps (c : N) (s : jsstring) :
  isWhiteSpace c = false -> trimStart (c :: s) = c :: s.
Proof. cbn. by intros ->. Qed.

Lemma trimStart_head (s : jsstring) :
  trimStart s = [] \/ exists c r, trimStart s = c :: r /\ isWhiteSpace c = false.
Proof.
  induction s as [|c s IH]; [by left|].
  cbn. destruct (isWhiteSpace c) eqn:Hc; [done|]. right. eauto.
Qed.

Lemma trimStart_idempotent (s : jsstring) : trimStart (trimStart s) = trimStart s.
Proof.
  destruct (trimStart_head s) as [->|(c & r & -> & Hc)]; [done|].
  by apply trimStart_keeps.
Qed.

Lemma trimStart_snoc (l : jsstring) (d : N) :
  isWhiteSpace d = false -> trimStart (l ++ [d]) = trimStart l ++ [d].
Proof.
  intros Hd. induction l as [|c l IH]; cbn; [by rewrite Hd|].
  by destruct (isWhiteSpace c).
Qed.

Lemma trimEnd_cons (c : N) (s : jsstring) :
  isWhiteSpace c = false -> trimEnd (c :: s) = c :: trimEnd s.
Proof.
  intros Hc. unfold trimEnd. cbn [rev]. rewrite (trimStart_snoc _ _ Hc).
  by rewrite rev_app_distr.
Qed.

(** [trim] leaves a trimmed string as it is. *)
Lemma trim_idempotent (s : jsstring) : trim (trim s) = trim s.
Proof.
  unfold trim. destruct (trimStart_head s) as [->|(c & r & -> & Hc)]; [done|].
  rewrite (trimEnd_cons _ _ Hc), (trimStart_keeps _ _ Hc), (trimEnd_cons _ _ Hc).
  f_equal. unfold trimEnd. by rewrite rev_involutive, trimStart_idempotent.
Qed.

(** A string between two characters that are not white space is trimmed. *)
Lemma trim_fixed (c d : N) (mid : jsstring) :
  isWhiteSpace c = false -> isWhiteSpace d = false ->
  trim (c :: mid ++ [d]) = c :: mid ++ [d].
Proof.
  intros Hc Hd. unfold trim. rewrite (trimStart_keeps _ _ Hc), (trimEnd_cons _ _ Hc).
  f_equal. unfold trimEnd. rewrite rev_app_distr. cbn [rev app].
  rewrite (trimStart_keeps _ _ Hd). cbn [rev]. by rewrite rev_involutive.
Qed.

Lemma demo_summary_trimmed env text :
  truthy (demo_summary env text) = true
  /\ trim (demo_summary env text) = demo_summary env text.
Proof.
  assert (demo_summary env text
          = 8226 :: (lit " (Demo) No AI provider responded" ++ nl ++
                     bullet ++ lit " Gemini model tried: " ++ GEMINI_MODEL env ++ nl ++
                     bullet ++ lit " Tip: set GEMINI_API_KEY (AI Studio) with gemini-2.0-flash" ++ nl ++
                     bullet ++ lit " Or add OPENAI_API_KEY (with quota)" ++ nl ++
                     bullet ++ lit " Input length: " ++ Number_toString (len text)
                     ++ lit " char") ++ [115]) as ->.
  { unfold demo_summary. change (lit " chars") with (lit " char" ++ [115]).
    rewrite <- !app_assoc. reflexivity. }
  split; [done|]. by apply trim_fixed.
Qed.

End HeaderAndTrim.

(** X5. The bearer header is read by splitting at spaces.  For a header
    [scheme token] or [scheme token rest...] whose scheme lower-cases to
    "bearer" and whose token is not empty, the verifier finds that scheme and
    that token, and on a configured service asks jose once, about exactly
    that token, with the issuer "https://" AUTH0_DOMAIN "/" and the
    configured audience.  A header with two spaces after the scheme has an
    empty token and is malformed. *)
Theorem bearer_header_is_split_at_spaces W env req (scheme tok : jsstring) :
  32 ∉ scheme ->
  (forall rest : jsstring,
      32 ∉ tok -> tok <> [] ->
      toLowerCase scheme = lit "bearer" ->
      authorization req = Some (scheme ++ 32 :: tok)
      \/ authorization req = Some (scheme ++ 32 :: tok ++ 32 :: rest) ->
      scheme_of req = Some scheme
      /\ token_of req = Some tok
      /\ header_malformed req = false
      /\ (auth_configured env = true ->
          exists jwks,
            verifier_calls (trace (summarize_route W env req))
            = [JwtVerify tok jwks (lit "https://" ++ AUTH0_DOMAIN env ++ lit "/")
                 (AUTH0_AUDIENCE env)]))
  /\
  (forall rest : jsstring,
      authorization req = Some (scheme ++ 32 :: 32 :: rest) ->
      token_of req = Some ([] : jsstring) /\ header_malformed req = true).
Proof.
  intros Hs. split.
  - intros rest Ht Hne Hlow Hauth.
    assert (auth_parts req !! 0%nat = Some scheme /\ auth_parts req !! 1%nat = Some tok)
      as [H0 H1].
    { destruct Hauth as [Hauth|Hauth]; rewrite (auth_parts_of _ _ Hauth);
        unfold split; rewrite (split_from_app 32 scheme _ [] Hs).
      - by rewrite (split_from_no_sep 32 tok [] Ht).
      - by rewrite (split_from_app 32 tok _ [] Ht). }
    assert (header_malformed req = false) as Hm.
    { unfold header_malformed, scheme_is_not_bearer, scheme_of, token_of.
      rewrite H0, H1. cbn [fmap option_fmap option_map truthy_opt]. rewrite Hlow.
      rewrite bool_decide_eq_true_2 by done. by destruct tok. }
    unfold scheme_of, token_of. do 3 (split; [done|]).
    intros Hc.
    assert (ISSUER env = lit "https://" ++ AUTH0_DOMAIN env ++ lit "/") as Hiss.
    { unfold ISSUER. unfold auth_configured in Hc.
      by destruct (truthy (AUTH0_DOMAIN env)). }
    assert (verify_call env req
            = JwtVerify tok (ISSUER env ++ lit ".well-known/jwks.json")
                (lit "https://" ++ AUTH0_DOMAIN env ++ lit "/") (AUTH0_AUDIENCE env))
      as Hcall.
    { unfold verify_call, token_of. rewrite H1. cbn [default]. by rewrite <- Hiss. }
    exists (ISSUER env ++ lit ".well-known/jwks.json").
    destruct (jwtVerify W (default [] (token_of req))
                (ISSUER env ++ lit ".well-known/jwks.json") (ISSUER env)
                (AUTH0_AUDIENCE env)) as [e|payload] eqn:Hj.
    + rewrite (rejected_token_run W env req e Hc Hm Hj).
      cbn [trace fst]. by rewrite <- Hcall.
    + assert (authenticates W env req = true) as Ha
        by (apply authenticates_iff; eauto).
      rewrite (route_accepts W env req Ha). cbn [trace fst].
      change (verifier_calls (?a :: ?l)) with (a :: verifier_calls l).
      by rewrite handler_no_verifier_call, Hcall.
  - intros rest Hauth.
    assert (auth_parts req !! 1%nat = Some ([] : jsstring)) as H1.
    { rewrite (auth_parts_of _ _ Hauth).
      unfold split. by rewrite (split_from_app 32 scheme _ [] Hs). }
    unfold header_malformed, token_of. rewrite H1. split; [done|].
    apply orb_true_r.
Qed.

(** X5 on an upper-case scheme with trailing text, and on a doubled
    space. *)
Lemma bearer_header_is_split_at_spaces_witness :
  let W := Sample.world Sample.gemini_ok Sample.openai_ok in
  let env := Sample.both_env in
  (let req := Sample.request (Some (lit "BEARER abc.def.ghi trailing words"))
                (Sample.text_body Sample.notes) in
   token_of req = Some (lit "abc.def.ghi")
   /\ exists jwks,
        verifier_calls (trace (summarize_route W env req))
        = [JwtVerify (lit "abc.def.ghi") jwks
             (lit "https://dev-xxx.us.auth0.com/") (lit "https://summaraize.api")])
  /\
  (let req := Sample.request (Some (lit "Bearer  abc.def.ghi"))
                (Sample.text_body Sample.notes) in
   header_malformed req = true).
Proof.
  cbv zeta. split.
  - destruct (proj1 (bearer_header_is_split_at_spaces
                       (Sample.world Sample.gemini_ok Sample.openai_ok) Sample.both_env
                       (Sample.request (Some (lit "BEARER abc.def.ghi trailing words"))
                          (Sample.text_body Sample.notes))
                       (lit "BEARER") (lit "abc.def.ghi")
                       ltac:(apply (bool_decide_unpack _); by vm_compute))
                (lit "trailing words")
                ltac:(apply (bool_decide_unpack _); by vm_compute) ltac:(by vm_compute)
                ltac:(by vm_compute) ltac:(right; by vm_compute))
      as (_ & Htok & _ & Hcall).
    split; [exact Htok|].
    destruct (Hcall ltac:(by vm_compute)) as [jwks ->]. exists jwks. by vm_compute.
  - apply (proj2 (bearer_header_is_split_at_spaces
                    (Sample.world Sample.gemini_ok Sample.openai_ok) Sample.both_env
                    (Sample.request (Some (lit "Bearer  abc.def.ghi"))
                       (Sample.text_body Sample.notes))
                    (lit "Bearer") [] ltac:(apply (bool_decide_unpack _); by vm_compute))
             (lit "abc.def.ghi")).
    by vm_compute.
Defined.

Section Summaries.

Variable W : World.
Variable env : gmap string jsstring.

(** The responses of an authenticated request with a valid body, with what
    the handler knows of each summary. *)
Lemma valid_request_summaries req text :
  authenticates W env req = true ->
  Body_safeParse (body req) = inr text ->
  let rs := responses (trace (summarize_route W env req)) in
  (exists r, truthy (trim r) = true
             /\ rs = [SendJson 200 (gemini_result env (trim r))])
  \/ (exists c, truthy (trim c) = true
                /\ rs = [SendJson 200 (openai_result (trim c))])
  \/ rs = [SendJson 429 openai_quota_body]
  \/ rs = [SendJson 200 (demo_result env text)].
Proof.
  intros Ha Hp. cbv zeta. rewrite (route_valid W env req text Ha Hp).
  gemini_cases W env text;
    [| left; eexists; split; [eassumption|reflexivity] | |];
    openai_cases W env text;
    try match goal with c : option jsstring |- _ =>
          destruct c; [|try discriminate] end;
    first [ right; left;
            match goal with
            | H : truthy (default [] (trim <$> Some ?j)) = true |- _ =>
                exists j; split; [exact H|reflexivity]
            end
          | right; right; left; reflexivity
          | right; right; right; reflexivity ].
Qed.

(** The route answers every request with exactly one JSON response. *)
Lemma route_one_response req :
  exists status b,
    responses (trace (summarize_route W env req)) = [SendJson status b].
Proof.
  destruct (authenticates W env req) eqn:Ha.
  - destruct (Body_safeParse (body req)) as [issues|text] eqn:Hp.
    + destruct (invalid_request_responses W env req issues Ha Hp) as [->|[->| ->]];
        eauto.
    + destruct (valid_request_responses W env req text Ha Hp)
        as [[s ->]|[[s ->]|[->| ->]]]; eauto.
  - destruct (rejected_request_responses W env req Ha) as (d & -> & _). eauto.
Qed.

End Summaries.

(** X6. Every response of status 200 carries a summary that is not empty
    and has no white space at either end: a provider's answer is sent
    trimmed and only when something is left of it, and the demo text starts
    with a bullet and ends with a letter. *)
Theorem every_summary_is_trimmed_and_not_empty W env req b :
  In (SendJson 200 b) (trace (summarize_route W env req)) ->
  exists s,
    b !! "summary" = Some s /\ truthy s = true /\ trim s = s.
Proof.
  intros Hin.
  assert (In (SendJson 200 b) (responses (trace (summarize_route W env req)))) as Hr.
  { apply List.filter_In. auto. }
  clear Hin. destruct (authenticates W env req) eqn:Ha.
  - destruct (Body_safeParse (body req)) as [issues|text] eqn:Hp.
    + destruct (invalid_request_responses W env req issues Ha Hp) as [H|[H|H]];
        rewrite H in Hr; by destruct Hr as [|[]].
    + destruct (valid_request_summaries W env req text Ha Hp)
        as [(r & Ht & H)|[(c & Ht & H)|[H|H]]];
        rewrite H in Hr; destruct Hr as [[= <-]|[]].
      * exists (trim r). destruct (gemini_result_fields env (trim r)) as (? & _).
        auto using trim_idempotent.
      * exists (trim c). destruct (openai_result_fields (trim c)) as (? & _).
        auto using trim_idempotent.
      * exists (demo_summary env text).
        destruct (demo_result_fields env text) as (? & _).
        destruct (demo_summary_trimmed env text). auto.
  - destruct (rejected_request_responses W env req Ha) as (d & H & _).
    rewrite H in Hr. by destruct Hr as [|[]].
Qed.

(** X6 on a Gemini answer with white space around it. *)
Lemma every_summary_is_trimmed_and_not_empty_witness :
  exists s,
    gemini_result Sample.both_env (lit "* point one") !! "summary" = Some s
    /\ truthy s = true /\ trim s = s.
Proof.
  apply (every_summary_is_trimmed_and_not_empty
           (Sample.world Sample.gemini_ok Sample.openai_ok) Sample.both_env
           (Sample.request Sample.bearer (Sample.text_body Sample.notes))).
  right. right. left. by vm_compute.
Defined.

(** X7. For an authenticated request the fallback chain is entered exactly
    when the body is an object whose [text] is a string of 1 to 20000 code
    units: then the response has status 200 or 429, and otherwise it has
    status 400 or 500.  Other fields of the body play no part. *)
Theorem chain_entered_iff_text_in_bounds W env req :
  authenticates W env req = true ->
  ((exists fields s,
       body req = JObject fields
       /\ get_field fields (lit "text") = JString s
       /\ 1 <= len s <= 20000)
   <->
   (exists status b,
       responses (trace (summarize_route W env req)) = [SendJson status b]
       /\ (status = 200 \/ status = 429)))
  /\
  (exists status b,
      responses (trace (summarize_route W env req)) = [SendJson status b]
      /\ (status = 200 \/ status = 429 \/ status = 400 \/ status = 500)).
Proof.
  intros Ha. destruct (Body_safeParse (body req)) as [issues|text] eqn:Hp.
  - assert (exists status b,
               responses (trace (summarize_route W env req)) = [SendJson status b]
               /\ (status = 400 \/ status = 500)) as (st & b & Hr & Hst).
    { destruct (invalid_request_responses W env req issues Ha Hp) as [->|[->| ->]];
        eauto 6. }
    split; [|exists st, b; intuition].
    split.
    + intros (fields & s & Hb & Hf & Hlen).
      assert (Body_safeParse (body req) = inr s) as Hok
        by (apply Body_safeParse_inr; eauto).
      congruence.
    + intros (st' & b' & Hr' & Hst'). rewrite Hr in Hr'. injection Hr' as <- <-.
      destruct Hst as [-> | ->], Hst' as [|]; discriminate.
  - assert (exists status b,
               responses (trace (summarize_route W env req)) = [SendJson status b]
               /\ (status = 200 \/ status = 429)) as Hr.
    { destruct (valid_request_responses W env req text Ha Hp)
        as [[s ->]|[[s ->]|[->| ->]]]; eauto 6. }
    split.
    + split; [done|]. intros _.
      apply Body_safeParse_inr in Hp as (fields & ? & ? & ?). eauto.
    + destruct Hr as (st & b & ? & [|]); exists st, b; auto.
Qed.

(** X7 at the bounds: 20000 code units pass, the empty text does not. *)
Lemma chain_entered_iff_text_in_bounds_witness :
  let W := Sample.world Sample.gemini_ok Sample.openai_ok in
  let env := Sample.both_env in
  (exists status b,
      responses (trace (summarize_route W env
                          (Sample.request Sample.bearer
                             (Sample.text_body (repeat 97 (N.to_nat 20000))))))
      = [SendJson status b]
      /\ (status = 200 \/ status = 429))
  /\
  ~ (exists status b,
        responses (trace (summarize_route W env
                            (Sample.request Sample.bearer (Sample.text_body []))))
        = [SendJson status b]
        /\ (status = 200 \/ status = 429)).
Proof.
  cbv zeta. split.
  - apply (proj1 (chain_entered_iff_text_in_bounds
                    (Sample.world Sample.gemini_ok Sample.openai_ok) Sample.both_env
                    (Sample.request Sample.bearer
                       (Sample.text_body (repeat 97 (N.to_nat 20000))))
                    eq_refl)).
    exists [(lit "text", JString (repeat 97 (N.to_nat 20000)))],
           (repeat 97 (N.to_nat 20000)).
    split; [reflexivity|]. split; [reflexivity|].
    unfold len. rewrite repeat_length, N2Nat.id. lia.
  - intros H.
    apply (proj1 (chain_entered_iff_text_in_bounds
                    (Sample.world Sample.gemini_ok Sample.openai_ok) Sample.both_env
                    (Sample.request Sample.bearer (Sample.text_body []))
                    eq_refl)) in H
      as (fields & s & Hb & Hf & Hlen).
    injection Hb as <-. injection Hf as <-.
    change (len []) with 0 in Hlen. lia.
Defined.

(** ** Properties of the page *)

Module PageFacts.

Import UI.

Ltac ui_step :=
  cbv beta iota zeta delta
    [UI.bind UI.ret UI.throw UI.try_catch UI.try_finally UI.update_page
     UI.update_storage setText setSummary setLoading setError setItem
     removeItem UI.await new_Error];
  cbn [page localStorage calls text summary loading error fst snd
       pe_message pe_error pe_code negb].

Lemma or_else_truthy (a b : jsstring) : truthy b = true -> truthy (or_else a b) = true.
Proof. unfold or_else. by destruct a. Qed.

Lemma or_else_of_truthy (a b : jsstring) : truthy a = true -> or_else a b = a.
Proof. unfold or_else. by intros ->. Qed.

Lemma truthy_len (s : jsstring) : truthy s = true <-> 1 <= len s.
Proof. unfold len. destruct s; cbn; split; (done || lia). Qed.

Section Home.

Variable B : Browser.
Variable apiBase audience : jsstring.

(** The run of [getApiToken] when the SDK hands out a token. *)
Lemma getApiToken_token ctx tok :
  getAccessTokenSilently B audience = inr tok ->
  truthy tok = true ->
  getApiToken B audience ctx
  = ({| page := page ctx; localStorage := localStorage ctx;
        calls := calls ctx ++ [GetAccessTokenSilently audience] |},
     inr tok).
Proof. unfold getApiToken. intros Ht Hn. ui_step. rewrite Ht. ui_step. rewrite Hn. reflexivity. Qed.

(** [getApiToken] never hands out an empty token. *)
Lemma getApiToken_truthy ctx ctx' tok :
  getApiToken B audience ctx = (ctx', inr tok) -> truthy tok = true.
Proof.
  unfold getApiToken. ui_step.
  destruct (getAccessTokenSilently B audience) as [e|t]; ui_step.
  - destruct (needs_login _); ui_step; [|discriminate].
    destruct (loginWithRedirect B audience); discriminate.
  - destruct (truthy t) eqn:Ht; ui_step; [congruence|].
    destruct (needs_login _); ui_step; [|discriminate].
    destruct (loginWithRedirect B audience); discriminate.
Qed.

(** [getApiToken] leaves the component's state alone and adds no [fetch]. *)
Lemma getApiToken_frame ctx ctx' r :
  getApiToken B audience ctx = (ctx', r) ->
  page ctx' = page ctx
  /\ exists cs, calls ctx' = calls ctx ++ cs
                /\ forall url auth b, ~ In (Fetch url auth b) cs.
Proof.
  unfold getApiToken. ui_step.
  assert (forall cs : list Call,
             (forall c, In c cs -> forall url auth b, c <> Fetch url auth b) ->
             forall url auth b, ~ In (Fetch url auth b) cs) as Hno.
  { intros cs H url auth b Hin. by apply (H _ Hin url auth b). }
  destruct (getAccessTokenSilently B audience) as [e|t]; ui_step.
  - destruct (needs_login _); ui_step.
    + destruct (loginWithRedirect B audience); intros [= <- <-]; ui_step;
        (split; [done|]); rewrite <- app_assoc; eexists; (split; [reflexivity|]);
        apply Hno; intros c [<-|[<-|[]]]; done.
    + intros [= <- <-]; ui_step. split; [done|]. eexists. split; [reflexivity|].
      apply Hno; intros c [<-|[]]; done.
  - destruct (truthy t); ui_step.
    + intros [= <- <-]; ui_step. split; [done|]. eexists. split; [reflexivity|].
      apply Hno; intros c [<-|[]]; done.
    + destruct (needs_login _); ui_step.
      * destruct (loginWithRedirect B audience); intros [= <- <-]; ui_step;
          (split; [done|]); rewrite <- app_assoc; eexists; (split; [reflexivity|]);
          apply Hno; intros c [<-|[<-|[]]]; done.
      * intros [= <- <-]; ui_step. split; [done|]. eexists. split; [reflexivity|].
        apply Hno; intros c [<-|[]]; done.
Qed.

End Home.

(** X10. [handleSummarize] guards the run: when the text trims to nothing
    it does nothing at all, and when the trimmed text has more than 20000
    code units it only sets the error, naming the length and the maximum;
    in both cases no call is made, and the summary and the loading flag
    stay as they were. *)
Theorem handleSummarize_guards B apiBase audience ctx :
  (truthy (trim (text (page ctx))) = false ->
   handleSummarize B apiBase audience ctx = (ctx, inr tt))
  /\
  (MAX_CHARS < len (trim (text (page ctx))) ->
   handleSummarize B apiBase audience ctx
   = ({| page := {| text := text (page ctx); summary := summary (page ctx);
                    loading := loading (page ctx);
                    error := Some (lit "Input is too long ("
                                   ++ Number_toString (len (trim (text (page ctx))))
                                   ++ lit " chars). Max is 20000.") |};
         localStorage := localStorage ctx; calls := calls ctx |},
      inr tt)).
Proof.
  unfold handleSummarize. split.
  - by intros ->.
  - intros Hlen.
    assert (truthy (trim (text (page ctx))) = true) as ->.
    { apply truthy_len. unfold MAX_CHARS in Hlen. lia. }
    apply N.ltb_lt in Hlen. rewrite Hlen. cbn [negb]. ui_step.
    reflexivity.
Qed.

(** X10 on a text of spaces. *)
Lemma handleSummarize_guards_witness :
  let B := {| getAccessTokenSilently := fun _ => inr (lit "abc.def");
              loginWithRedirect := fun _ => None;
              fetch := fun _ _ _ => inl (new_Error (lit "Failed to fetch")) |} in
  let ctx := {| page := {| text := lit "   "; summary := lit "old"; loading := false;
                           error := None |};
                localStorage := ∅; calls := [] |} in
  handleSummarize B (lit "/api") (lit "aud") ctx = (ctx, inr tt).
Proof.
  cbv zeta.
  apply (proj1 (handleSummarize_guards
                  {| getAccessTokenSilently := fun _ => inr (lit "abc.def");
                     loginWithRedirect := fun _ => None;
                     fetch := fun _ _ _ => inl (new_Error (lit "Failed to fetch")) |}
                  (lit "/api") (lit "aud")
                  {| page := {| text := lit "   "; summary := lit "old";
                                loading := false; error := None |};
                     localStorage := ∅; calls := [] |})).
  reflexivity.
Defined.

Section Runs.

Variable B : Browser.
Variable apiBase audience : jsstring.


(** The run of [doSummarize], by what the token and the response are. *)
Lemma doSummarize_run trimmed ctx :
  truthy apiBase = true ->
  doSummarize B apiBase audience trimmed ctx
  = match getApiToken B audience (started ctx) with
    | (ctx', inl e) =>
        (settled ctx' (summary (page ctx'))
           (Some (or_else (pe_message e) (lit "Failed to summarize."))), inr tt)
    | (ctx', inr token) =>
        let call := Fetch (apiBase ++ lit "/summarize") (lit "Bearer " ++ token)
                      (request_body trimmed) in
        match fetch B (apiBase ++ lit "/summarize") (lit "Bearer " ++ token)
                (request_body trimmed) with
        | inl e =>
            (settled (with_call ctx' call) (summary (page ctx'))
               (Some (or_else (pe_message e) (lit "Failed to summarize."))), inr tt)
        | inr res =>
            if ok res then
              (settled (with_call ctx' call)
                 (default [] (default ∅ (json res) !! "summary")) (error (page ctx')),
               inr tt)
            else
              (settled (with_call ctx' call) (summary (page ctx'))
                 (Some (or_else (failure_message res) (lit "Failed to summarize."))),
               inr tt)
        end
    end.
Proof.
  intros Hapi. unfold doSummarize. rewrite Hapi. ui_step.
  change {| page := {| text := text (page ctx); summary := []; loading := true;
                       error := None |};
            localStorage := localStorage ctx; calls := calls ctx |}
    with (started ctx).
  destruct (getApiToken B audience (started ctx)) as [ctx' [e|token]]; [done|].
  destruct (fetch B _ _ _) as [e|res]; [done|].
  by destruct (ok res).
Qed.

End Runs.

(** X11. A summarize run always settles.  With the API base set,
    [doSummarize] never rejects, leaves the text as it was and ends with the
    loading flag down; and it ends either without error, or with an empty
    summary and an error message that is not empty.  Without the API base it
    only sets the error and makes no call. *)
Theorem doSummarize_settles B apiBase audience trimmed ctx :
  (truthy apiBase = true ->
   snd (doSummarize B apiBase audience trimmed ctx) = inr tt
   /\ loading (page (fst (doSummarize B apiBase audience trimmed ctx))) = false
   /\ text (page (fst (doSummarize B apiBase audience trimmed ctx))) = text (page ctx)
   /\ (error (page (fst (doSummarize B apiBase audience trimmed ctx))) = None
       \/ (summary (page (fst (doSummarize B apiBase audience trimmed ctx))) = []
           /\ exists msg,
               error (page (fst (doSummarize B apiBase audience trimmed ctx))) = Some msg
               /\ truthy msg = true)))
  /\
  (truthy apiBase = false ->
   doSummarize B apiBase audience trimmed ctx
   = ({| page := {| text := text (page ctx); summary := summary (page ctx);
                    loading := loading (page ctx);
                    error := Some missing_api_base |};
         localStorage := localStorage ctx; calls := calls ctx |},
      inr tt)).
Proof.
  split.
  - intros Hapi. rewrite (doSummarize_run B apiBase audience trimmed ctx Hapi).
    destruct (getApiToken B audience (started ctx)) as [ctx' r] eqn:Hg.
    destruct (getApiToken_frame B audience _ _ _ Hg) as [Hpage _].
    assert (forall e, truthy (or_else (pe_message e) (lit "Failed to summarize.")) = true)
      as Hmsg by (intros e; by apply or_else_truthy).
    destruct r as [e|token].
    + cbn [fst snd settled with_call page text summary loading error].
      rewrite Hpage. unfold started. cbn [page text summary].
      do 3 (split; [reflexivity|]). right. split; [reflexivity|].
      eexists. split; [reflexivity|]. apply Hmsg.
    + destruct (fetch B _ _ _) as [e|res]; [|destruct (ok res)];
        cbn [fst snd settled with_call page text summary loading error];
        rewrite Hpage; unfold started; cbn [page text error summary];
        (do 3 (split; [reflexivity|])).
      * right. split; [reflexivity|]. eexists. split; [reflexivity|]. apply Hmsg.
      * left. reflexivity.
      * right. split; [reflexivity|]. eexists. split; [reflexivity|].
        apply or_else_truthy. reflexivity.
  - intros Hapi. unfold doSummarize. by rewrite Hapi.
Qed.

(** X11 on a browser whose token call fails. *)
Lemma doSummarize_settles_witness :
  let B := {| getAccessTokenSilently := fun _ => inl (new_Error (lit "offline"));
              loginWithRedirect := fun _ => None;
              fetch := fun _ _ _ => inl (new_Error (lit "Failed to fetch")) |} in
  let ctx := {| page := {| text := lit "notes"; summary := lit "old"; loading := false;
                           error := None |};
                localStorage := ∅; calls := [] |} in
  loading (page (fst (doSummarize B (lit "http://localhost:4000/api") (lit "aud")
                        (lit "notes") ctx))) = false
  /\ doSummarize B [] (lit "aud") (lit "notes") ctx
     = ({| page := {| text := lit "notes"; summary := lit "old"; loading := false;
                      error := Some missing_api_base |};
           localStorage := ∅; calls := [] |},
        inr tt).
Proof.
  cbv zeta. split.
  - apply (proj1 (doSummarize_settles
                    {| getAccessTokenSilently := fun _ => inl (new_Error (lit "offline"));
                       loginWithRedirect := fun _ => None;
                       fetch := fun _ _ _ => inl (new_Error (lit "Failed to fetch")) |}
                    (lit "http://localhost:4000/api") (lit "aud") (lit "notes")
                    {| page := {| text := lit "notes"; summary := lit "old";
                                  loading := false; error := None |};
                       localStorage := ∅; calls := [] |})).
    reflexivity.
  - apply (proj2 (doSummarize_settles
                    {| getAccessTokenSilently := fun _ => inl (new_Error (lit "offline"));
                       loginWithRedirect := fun _ => None;
                       fetch := fun _ _ _ => inl (new_Error (lit "Failed to fetch")) |}
                    [] (lit "aud") (lit "notes")
                    {| page := {| text := lit "notes"; summary := lit "old";
                                  loading := false; error := None |};
                       localStorage := ∅; calls := [] |})).
    reflexivity.
Defined.

(** X12. When the SDK refuses the token with an error whose [error] or
    [code], lower-cased, names [login_required], [consent_required] or
    [interaction_required], a summarize run stores the resume flag and the
    text in [localStorage] and calls [loginWithRedirect]; for every other
    refusal it stores nothing and does not redirect.  In both cases no
    [fetch] is made, and when the redirect call resolves the error shown is
    the message of the SDK's error, or "Failed to summarize." when it has
    none. *)
Theorem token_refusal B apiBase audience trimmed ctx e :
  truthy apiBase = true ->
  getAccessTokenSilently B audience = inl e ->
  let code := toLowerCase (or_else (pe_error e) (or_else (pe_code e) [])) in
  let ctx' := fst (doSummarize B apiBase audience trimmed ctx) in
  (needs_login code = true ->
   localStorage ctx'
   = <[LS_TEXT := text (page ctx)]> (<[LS_RESUME := lit "1"]> (localStorage ctx))
   /\ calls ctx'
      = calls ctx ++ [GetAccessTokenSilently audience; LoginWithRedirect audience]
   /\ (loginWithRedirect B audience = None ->
       error (page ctx') = Some (or_else (pe_message e) (lit "Failed to summarize."))))
  /\
  (needs_login code = false ->
   localStorage ctx' = localStorage ctx
   /\ calls ctx' = calls ctx ++ [GetAccessTokenSilently audience]
   /\ error (page ctx') = Some (or_else (pe_message e) (lit "Failed to summarize."))).
Proof.
  intros Hapi He. cbv zeta.
  rewrite (doSummarize_run B apiBase audience trimmed ctx Hapi).
  unfold getApiToken. ui_step. rewrite He. ui_step. split; intros ->; ui_step.
  - destruct (loginWithRedirect B audience) as [e'|]; ui_step;
      cbn [fst settled started page localStorage calls text summary loading error];
      rewrite <- app_assoc; (split; [done|]); (split; [done|]); done.
  - cbn [fst settled started page localStorage calls text summary loading error].
    done.
Qed.

(** X12 on an error that asks for a login, with its code in upper case. *)
Lemma token_refusal_witness :
  let B := {| getAccessTokenSilently :=
                fun _ => inl {| pe_error := lit "Login_Required"; pe_code := [];
                                pe_message := lit "Login required" |};
              loginWithRedirect := fun _ => None;
              fetch := fun _ _ _ => inl (new_Error (lit "Failed to fetch")) |} in
  let ctx := {| page := {| text := lit " notes "; summary := []; loading := false;
                           error := None |};
                localStorage := ∅; calls := [] |} in
  let ctx' := fst (doSummarize B (lit "/api") (lit "aud") (lit "notes") ctx) in
  localStorage ctx' !! LS_TEXT = Some (lit " notes ")
  /\ localStorage ctx' !! LS_RESUME = Some (lit "1")
  /\ calls ctx' = [GetAccessTokenSilently (lit "aud"); LoginWithRedirect (lit "aud")].
Proof.
  cbv zeta.
  destruct (proj1 (token_refusal
                     {| getAccessTokenSilently :=
                          fun _ => inl {| pe_error := lit "Login_Required"; pe_code := [];
                                          pe_message := lit "Login required" |};
                        loginWithRedirect := fun _ => None;
                        fetch := fun _ _ _ => inl (new_Error (lit "Failed to fetch")) |}
                     (lit "/api") (lit "aud") (lit "notes")
                     {| page := {| text := lit " notes "; summary := []; loading := false;
                                   error := None |};
                        localStorage := ∅; calls := [] |}
                     {| pe_error := lit "Login_Required"; pe_code := [];
                        pe_message := lit "Login required" |}
                     eq_refl eq_refl)
              ltac:(by vm_compute)) as (Hs & Hc & _).
  rewrite Hs, Hc. split; [apply lookup_insert_eq|].
  split; [|reflexivity]. rewrite lookup_insert_ne by done. apply lookup_insert_eq.
Defined.

(** The header the page builds is read back by the gateway. *)
Lemma bearer_header_parts (token : jsstring) (b : JsValue) :
  scheme_of (gateway_request (lit "Bearer " ++ token) b) = Some (lit "Bearer")
  /\ (32 ∉ token ->
      token_of (gateway_request (lit "Bearer " ++ token) b) = Some token).
Proof.
  assert (32 ∉ lit "Bearer") as Hs by (apply (bool_decide_unpack _); by vm_compute).
  unfold scheme_of, token_of.
  rewrite (auth_parts_of (gateway_request (lit "Bearer " ++ token) b)
             (lit "Bearer" ++ 32 :: token) eq_refl).
  unfold split. rewrite (split_from_app 32 (lit "Bearer") token [] Hs).
  split; [done|]. intros Ht. by rewrite (split_from_no_sep 32 token [] Ht).
Qed.

(** X13. Every request that [handleSummarize] sends passes the gateway's
    checks on its shape: it goes to [apiBase/summarize], its header is
    "Bearer " followed by a token that is not empty, which the gateway's
    middleware reads back as scheme and token when the token has no space,
    and its body is the object with the trimmed text, which the gateway's
    schema accepts unchanged. *)
Theorem handleSummarize_requests_pass_the_gateway_checks
  B apiBase audience ctx url auth b :
  In (Fetch url auth b) (calls (fst (handleSummarize B apiBase audience ctx))) ->
  ~ In (Fetch url auth b) (calls ctx) ->
  exists token,
    url = apiBase ++ lit "/summarize"
    /\ auth = lit "Bearer " ++ token
    /\ truthy token = true
    /\ b = request_body (trim (text (page ctx)))
    /\ Body_safeParse b = inr (trim (text (page ctx)))
    /\ scheme_is_not_bearer (scheme_of (gateway_request auth b)) = false
    /\ (32 ∉ token ->
        token_of (gateway_request auth b) = Some token
        /\ header_malformed (gateway_request auth b) = false).
Proof.
  unfold handleSummarize.
  destruct (truthy (trim (text (page ctx)))) eqn:Hne; cbn [negb]; [|done].
  destruct (N.ltb_spec MAX_CHARS (len (trim (text (page ctx))))) as [|Hmax]; [done|].
  destruct (truthy apiBase) eqn:Hapi.
  2:{ unfold doSummarize. rewrite Hapi. done. }
  rewrite (doSummarize_run B apiBase audience _ ctx Hapi).
  destruct (getApiToken B audience (started ctx)) as [ctx' [e|token]] eqn:Hg;
    destruct (getApiToken_frame B audience _ _ _ Hg) as (_ & cs & Hcs & Hno).
  - cbn [fst settled calls]. rewrite Hcs. intros [?|Hin]%in_app_or Hold; [done|].
    by destruct (Hno _ _ _ Hin).
  - pose proof (getApiToken_truthy B audience _ _ _ Hg) as Htok.
    assert (In (Fetch url auth b)
              (calls ctx' ++ [Fetch (apiBase ++ lit "/summarize") (lit "Bearer " ++ token)
                                (request_body (trim (text (page ctx))))]) ->
            ~ In (Fetch url auth b) (calls ctx) ->
            Fetch url auth b
            = Fetch (apiBase ++ lit "/summarize") (lit "Bearer " ++ token)
                (request_body (trim (text (page ctx))))) as Hcall.
    { rewrite Hcs. intros [[?|Hin]%in_app_or|[<-|[]]]%in_app_or Hold; try done.
      by destruct (Hno _ _ _ Hin). }
    assert (calls (fst (match fetch B (apiBase ++ lit "/summarize")
                                (lit "Bearer " ++ token)
                                (request_body (trim (text (page ctx)))) with
                        | inl e =>
                            (settled (with_call ctx'
                                        (Fetch (apiBase ++ lit "/summarize")
                                           (lit "Bearer " ++ token)
                                           (request_body (trim (text (page ctx))))))
                               (summary (page ctx'))
                               (Some (or_else (pe_message e) (lit "Failed to summarize."))),
                             inr tt)
                        | inr res =>
                            if ok res then
                              (settled (with_call ctx'
                                          (Fetch (apiBase ++ lit "/summarize")
                                             (lit "Bearer " ++ token)
                                             (request_body (trim (text (page ctx))))))
                                 (default [] (default ∅ (json res) !! "summary"))
                                 (error (page ctx')), inr tt)
                            else
                              (settled (with_call ctx'
                                          (Fetch (apiBase ++ lit "/summarize")
                                             (lit "Bearer " ++ token)
                                             (request_body (trim (text (page ctx))))))
                                 (summary (page ctx'))
                                 (Some (or_else (failure_message res)
                                          (lit "Failed to summarize."))), inr tt)
                        end))
            = calls ctx' ++ [Fetch (apiBase ++ lit "/summarize") (lit "Bearer " ++ token)
                               (request_body (trim (text (page ctx))))]) as ->.
    { destruct (fetch B _ _ _) as [e|res]; [done|]. by destruct (ok res). }
    intros Hin Hold.
    assert (forall u a c u' a' c', Fetch u a c = Fetch u' a' c' ->
                                   u = u' /\ a = a' /\ c = c') as Hproj
      by (by intros * [= -> -> ->]).
    destruct (Hproj _ _ _ _ _ _ (Hcall Hin Hold)) as (Hu & Hau & Hb).
    subst url auth b.
    exists token. do 4 (split; [done|]).
    destruct (bearer_header_parts token (request_body (trim (text (page ctx)))))
      as [Hscheme Htoken].
    split; [|split].
    + apply Body_safeParse_inr. eexists. split; [reflexivity|]. split; [done|].
      apply truthy_len in Hne. unfold MAX_CHARS in Hmax. lia.
    + rewrite Hscheme. reflexivity.
    + intros Hsp. split; [by apply Htoken|].
      unfold header_malformed. rewrite Hscheme, (Htoken Hsp).
      cbn [truthy_opt]. rewrite Htok. reflexivity.
Qed.


(** X13 on a page with text around which there is white space. *)
Lemma handleSummarize_requests_pass_the_gateway_checks_witness :
  exists token,
    lit "Bearer abc.def" = lit "Bearer " ++ token
    /\ truthy token = true
    /\ Body_safeParse (request_body (lit "notes")) = inr (trim (lit " notes ")).
Proof.
  destruct (handleSummarize_requests_pass_the_gateway_checks
              (granting (lit "abc.def") (inl (new_Error (lit "Failed to fetch"))))
              (lit "/api") (lit "aud") (typed (lit " notes "))
              (lit "/api/summarize") (lit "Bearer abc.def") (request_body (lit "notes")))
    as (token & _ & Ha & Ht & _ & Hp & _).
  - right. left. reflexivity.
  - intros [].
  - exists token. auto.
Defined.

(** X14. The resume effect does not apply the length guard of
    [handleSummarize]: with the resume flag set, the user authenticated and
    a token at hand, a text whose trimmed length exceeds 20000 is sent as it
    is, in a body the gateway's schema rejects as too big; at the end the
    flag is gone from [localStorage]. *)
Theorem resume_effect_skips_the_length_guard B apiBase audience ctx tok :
  truthy apiBase = true ->
  localStorage ctx !! LS_RESUME = Some (lit "1") ->
  getAccessTokenSilently B audience = inr tok ->
  truthy tok = true ->
  MAX_CHARS < len (trim (text (page ctx))) ->
  let ctx' := fst (resume_effect B apiBase audience true ctx) in
  calls ctx'
  = calls ctx ++ [GetAccessTokenSilently audience;
                  Fetch (apiBase ++ lit "/summarize") (lit "Bearer " ++ tok)
                    (request_body (trim (text (page ctx))))]
  /\ Body_safeParse (request_body (trim (text (page ctx))))
     = inl [too_big 20000 [lit "text"]]
  /\ localStorage ctx' !! LS_RESUME = None.
Proof.
  intros Hapi Hflag Htok Hne Hlen. cbv zeta. unfold resume_effect.
  rewrite Hflag, bool_decide_eq_true_2 by done.
  assert (truthy (trim (text (page ctx))) = true) as Htr.
  { apply truthy_len. unfold MAX_CHARS in Hlen. lia. }
  rewrite Htr. cbn [andb]. ui_step.
  rewrite (doSummarize_run B apiBase audience _ _ Hapi).
  rewrite (getApiToken_token B audience _ tok Htok Hne).
  cbn [started page localStorage calls text].
  split; [|split].
  - destruct (fetch B _ _ _) as [e|res]; [|destruct (ok res)];
      cbn [fst settled with_call calls]; by rewrite <- app_assoc.
  - unfold request_body, Body_safeParse, string_min_max.
    change (get_field [(lit "text", JString (trim (text (page ctx))))] (lit "text"))
      with (JString (trim (text (page ctx)))).
    unfold MAX_CHARS in Hlen.
    cbv beta iota.
    assert ((len (trim (text (page ctx))) <? 1) = false) as ->
      by (apply N.ltb_ge; lia).
    assert ((20000 <? len (trim (text (page ctx)))) = true) as ->
      by (apply N.ltb_lt; lia).
    reflexivity.
  - destruct (fetch B _ _ _) as [e|res]; [|destruct (ok res)];
      cbn [fst settled with_call localStorage]; apply lookup_delete_eq.
Qed.

(** X14 on a text of 20001 code units. *)
Lemma resume_effect_skips_the_length_guard_witness :
  let ctx := {| page := {| text := repeat 97 (N.to_nat 20001); summary := [];
                           loading := false; error := None |};
                localStorage := {[LS_RESUME := lit "1"]}; calls := [] |} in
  localStorage
    (fst (resume_effect (granting (lit "abc.def") (inl (new_Error (lit "Failed to fetch"))))
            (lit "/api") (lit "aud") true ctx)) !! LS_RESUME = None.
Proof.
  cbv zeta.
  assert (MAX_CHARS < len (trim (repeat 97 (N.to_nat 20001)))) as Hlen.
  { assert (trim (repeat 97 (N.to_nat 20001)) = repeat 97 (N.to_nat 20001)) as ->.
    { replace (N.to_nat 20001) with (S (N.to_nat 19999 + 1)) by lia.
      cbn [repeat]. rewrite repeat_app. by apply trim_fixed. }
    unfold len, MAX_CHARS. rewrite repeat_length, N2Nat.id. lia. }
  exact (proj2 (proj2 (resume_effect_skips_the_length_guard
           (granting (lit "abc.def") (inl (new_Error (lit "Failed to fetch"))))
           (lit "/api") (lit "aud")
           {| page := {| text := repeat 97 (N.to_nat 20001); summary := [];
                         loading := false; error := None |};
              localStorage := {[LS_RESUME := lit "1"]}; calls := [] |}
           (lit "abc.def") eq_refl eq_refl eq_refl eq_refl Hlen))).
Defined.

Lemma trim_truthy (t : jsstring) : truthy (trim t) = true -> truthy t = true.
Proof. by destruct t. Qed.


(** X15. What is typed survives a reload: [onChange] sets the text and
    stores it, and on a page loaded anew with that storage the restore
    effect brings the same text back. *)
Theorem typed_text_survives_a_reload (v : jsstring) ctx :
  let after := fst (onChange v ctx) in
  text (page after) = v
  /\ localStorage after !! LS_TEXT = Some v
  /\ text (page (fst (restore_effect (reloaded (localStorage after))))) = v.
Proof.
  cbv zeta. unfold onChange, restore_effect, reloaded. ui_step.
  split; [reflexivity|]. split; [apply lookup_insert_eq|].
  rewrite lookup_insert_eq. by destruct v.
Qed.

(** X16. The text typed before a login is the text summarized after it.
    When a run of [handleSummarize] is refused the token with an error that
    asks for a login, then on the page loaded anew the restore effect brings
    the text back, and the resume effect, once the user is authenticated,
    removes the flag and sends exactly one request, with the new token and
    the trimmed text; run again, it does nothing. *)
Theorem text_survives_the_login_redirect B1 B2 apiBase audience ctx e tok :
  truthy apiBase = true ->
  truthy (trim (text (page ctx))) = true ->
  len (trim (text (page ctx))) <= MAX_CHARS ->
  getAccessTokenSilently B1 audience = inl e ->
  needs_login (toLowerCase (or_else (pe_error e) (or_else (pe_code e) []))) = true ->
  getAccessTokenSilently B2 audience = inr tok ->
  truthy tok = true ->
  let before := fst (handleSummarize B1 apiBase audience ctx) in
  let fresh := fst (restore_effect (reloaded (localStorage before))) in
  let resumed := fst (resume_effect B2 apiBase audience true fresh) in
  text (page fresh) = text (page ctx)
  /\ calls resumed
     = [GetAccessTokenSilently audience;
        Fetch (apiBase ++ lit "/summarize") (lit "Bearer " ++ tok)
          (request_body (trim (text (page ctx))))]
  /\ localStorage resumed !! LS_RESUME = None
  /\ localStorage resumed !! LS_TEXT = Some (text (page ctx))
  /\ resume_effect B2 apiBase audience true resumed = (resumed, inr tt).
Proof.
  intros Hapi Hne Hmax He Hlogin Htok Htokne. cbv zeta.
  assert (localStorage (fst (handleSummarize B1 apiBase audience ctx))
          = <[LS_TEXT := text (page ctx)]> (<[LS_RESUME := lit "1"]> (localStorage ctx)))
    as ->.
  { unfold handleSummarize. rewrite Hne. cbn [negb].
    apply N.ltb_ge in Hmax. rewrite Hmax.
    rewrite (doSummarize_run B1 apiBase audience _ ctx Hapi).
    unfold getApiToken. ui_step. rewrite He. ui_step. rewrite Hlogin. ui_step.
    by destruct (loginWithRedirect B1 audience). }
  assert (fst (restore_effect
                 (reloaded (<[LS_TEXT := text (page ctx)]>
                              (<[LS_RESUME := lit "1"]> (localStorage ctx)))))
          = {| page := {| text := text (page ctx); summary := []; loading := false;
                          error := None |};
               localStorage := <[LS_TEXT := text (page ctx)]>
                                 (<[LS_RESUME := lit "1"]> (localStorage ctx));
               calls := [] |}) as ->.
  { unfold restore_effect, reloaded. cbn [localStorage].
    rewrite lookup_insert_eq, (trim_truthy _ Hne). reflexivity. }
  split; [reflexivity|].
  set (fresh := {| page := {| text := text (page ctx); summary := []; loading := false;
                              error := None |};
                   localStorage := <[LS_TEXT := text (page ctx)]>
                                     (<[LS_RESUME := lit "1"]> (localStorage ctx));
                   calls := [] |}).
  set (sent := with_call
                 {| page := {| text := text (page ctx); summary := [];
                               loading := true; error := None |};
                    localStorage := delete LS_RESUME (localStorage fresh);
                    calls := [GetAccessTokenSilently audience] |}
                 (Fetch (apiBase ++ lit "/summarize") (lit "Bearer " ++ tok)
                    (request_body (trim (text (page ctx)))))).
  assert (exists s err,
             fst (resume_effect B2 apiBase audience true fresh) = settled sent s err)
    as (s & err & ->).
  { subst sent fresh. unfold resume_effect. cbn [localStorage page text].
    rewrite lookup_insert_ne by done. rewrite lookup_insert_eq.
    rewrite bool_decide_eq_true_2 by done. rewrite Hne. cbn [andb]. ui_step.
    rewrite (doSummarize_run B2 apiBase audience _ _ Hapi).
    rewrite (getApiToken_token B2 audience _ tok Htok Htokne).
    cbn [started page localStorage calls text app].
    destruct (fetch B2 _ _ _) as [e'|res]; [|destruct (ok res)];
      cbn [fst]; eexists _, _; reflexivity. }
  subst sent fresh. cbn [settled with_call calls localStorage app].
  split; [reflexivity|]. split; [apply lookup_delete_eq|].
  split; [rewrite lookup_delete_ne by done; apply lookup_insert_eq|].
  unfold resume_effect. cbn [settled with_call localStorage].
  rewrite lookup_delete_eq. rewrite bool_decide_eq_false_2 by done.
  by rewrite andb_false_r.
Qed.


(** X16 on a text typed with white space around it. *)
Lemma text_survives_the_login_redirect_witness :
  let before := fst (handleSummarize asking_login (lit "/api") (lit "aud")
                       (typed (lit " notes "))) in
  let fresh := fst (restore_effect (reloaded (localStorage before))) in
  let resumed :=
    fst (resume_effect (granting (lit "abc.def") (inl (new_Error (lit "Failed to fetch"))))
           (lit "/api") (lit "aud") true fresh) in
  text (page fresh) = lit " notes "
  /\ calls resumed
     = [GetAccessTokenSilently (lit "aud");
        Fetch (lit "/api" ++ lit "/summarize") (lit "Bearer " ++ lit "abc.def")
          (request_body (trim (lit " notes ")))].
Proof.
  cbv zeta.
  destruct (text_survives_the_login_redirect
              asking_login
              (granting (lit "abc.def") (inl (new_Error (lit "Failed to fetch"))))
              (lit "/api") (lit "aud") (typed (lit " notes "))
              {| pe_error := lit "login_required"; pe_code := [];
                 pe_message := lit "Login required" |}
              (lit "abc.def")
              eq_refl eq_refl ltac:(by vm_compute) eq_refl eq_refl eq_refl eq_refl)
    as (Htext & Hcalls & _).
  split; [exact Htext|exact Hcalls].
Defined.

(** ** The page in front of the gateway *)

Section EndToEnd.

Variable W : World.
Variable env : gmap string jsstring.

(** The single response of the route, with what the page reads of it: a
    status 200 comes with a summary that is not empty, every other status is
    400, 401, 429 or 500 and comes with an error text that is not empty. *)
Lemma route_response_shape req :
  exists st b,
    responses (trace (summarize_route W env req)) = [SendJson st b]
    /\ ((st = 200 /\ exists s, b !! "summary" = Some s /\ truthy s = true)
        \/ ((st = 400 \/ st = 401 \/ st = 429 \/ st = 500)
            /\ exists e, b !! "error" = Some e /\ truthy e = true)).
Proof.
  destruct (authenticates W env req) eqn:Ha.
  - destruct (Body_safeParse (body req)) as [issues|t] eqn:Hp.
    + destruct (invalid_request_responses W env req issues Ha Hp) as [->|[->| ->]];
        eexists _, _; (split; [reflexivity|]); right; (split; [auto|]);
        eexists; (split; [|shelve]).
      * unfold gemini_unavailable_body. by simplify_map_eq.
      * unfold invalid_body. by simplify_map_eq.
      * unfold server_error_body. by simplify_map_eq.
      Unshelve. all: reflexivity.
    + destruct (valid_request_summaries W env req t Ha Hp)
        as [(r & Ht & ->)|[(c & Ht & ->)|[->| ->]]];
        eexists _, _; (split; [reflexivity|]).
      * left. split; [done|]. exists (trim r).
        by destruct (gemini_result_fields env (trim r)) as (? & _).
      * left. split; [done|]. exists (trim c).
        by destruct (openai_result_fields (trim c)) as (? & _).
      * right. split; [auto|]. eexists. split.
        -- unfold openai_quota_body. by simplify_map_eq.
        -- reflexivity.
      * left. split; [done|]. exists (demo_summary env t).
        destruct (demo_result_fields env t) as (? & _).
        by destruct (demo_summary_trimmed env t).
  - destruct (rejected_request_responses W env req Ha) as (d & -> & _).
    eexists _, _. split; [reflexivity|]. right. split; [auto|].
    exists (lit "Unauthorized").
    by destruct (unauthorized_body_fields d) as (_ & _ & ? & _).
Qed.

End EndToEnd.

(** X17. The page in front of the gateway.  When [handleSummarize] runs on
    a text that passes its guards, with a token at hand and [fetch] reaching
    the gateway, the gateway answers the request with status 200, 401 or 429
    and never with 400 or 500; on 200 the page shows the gateway's summary,
    which is not empty, and no error; otherwise it shows no summary and, as
    error, the [detail] of the response when it has one and its [error]
    text if not.  The loading flag is down at the end. *)
Theorem page_shows_what_the_gateway_answers W env B apiBase audience ctx tok :
  truthy apiBase = true ->
  truthy (trim (text (page ctx))) = true ->
  len (trim (text (page ctx))) <= MAX_CHARS ->
  getAccessTokenSilently B audience = inr tok ->
  truthy tok = true ->
  fetch B (apiBase ++ lit "/summarize") (lit "Bearer " ++ tok)
    (request_body (trim (text (page ctx))))
  = gateway_fetch W env (apiBase ++ lit "/summarize") (lit "Bearer " ++ tok)
      (request_body (trim (text (page ctx)))) ->
  let shown := page (fst (handleSummarize B apiBase audience ctx)) in
  exists st b,
    responses (trace (summarize_route W env
                        (gateway_request (lit "Bearer " ++ tok)
                           (request_body (trim (text (page ctx)))))))
    = [SendJson st b]
    /\ loading shown = false
    /\ ((st = 200
         /\ exists s, b !! "summary" = Some s /\ truthy s = true
                      /\ summary shown = s /\ error shown = None)
        \/ ((st = 401 \/ st = 429)
            /\ summary shown = []
            /\ exists e, b !! "error" = Some e
                         /\ error shown = Some (or_else (default [] (b !! "detail")) e))).
Proof.
  intros Hapi Hne Hmax Htok Htokne Hfetch. cbv zeta.
  set (trimmed := trim (text (page ctx))) in *.
  set (req := gateway_request (lit "Bearer " ++ tok) (request_body trimmed)).
  assert (Body_safeParse (body req) = inr trimmed) as Hp.
  { apply Body_safeParse_inr. eexists. split; [reflexivity|]. split; [done|].
    apply truthy_len in Hne. unfold MAX_CHARS in Hmax. lia. }
  assert (exists st b,
             responses (trace (summarize_route W env req)) = [SendJson st b]
             /\ ((st = 200 /\ exists s, b !! "summary" = Some s /\ truthy s = true)
                 \/ ((st = 401 \/ st = 429)
                     /\ exists e, b !! "error" = Some e /\ truthy e = true)))
    as (st & b & Hr & Hshape).
  { destruct (route_response_shape W env req) as (st & b & Hr & Hshape).
    exists st, b. split; [done|].
    destruct Hshape as [?|([->|[->|[->| ->]]] & He)]; auto.
    - exfalso. destruct (authenticates W env req) eqn:Ha.
      + destruct (valid_request_responses W env req trimmed Ha Hp)
          as [[s H]|[[s H]|[H|H]]]; rewrite H in Hr; discriminate.
      + destruct (rejected_request_responses W env req Ha) as (d & H & _).
        rewrite H in Hr. discriminate.
    - exfalso. destruct (authenticates W env req) eqn:Ha.
      + destruct (valid_request_responses W env req trimmed Ha Hp)
          as [[s H]|[[s H]|[H|H]]]; rewrite H in Hr; discriminate.
      + destruct (rejected_request_responses W env req Ha) as (d & H & _).
        rewrite H in Hr. discriminate. }
  exists st, b. split; [done|].
  unfold handleSummarize. fold trimmed. rewrite Hne. cbn [negb].
  apply N.ltb_ge in Hmax. rewrite Hmax.
  rewrite (doSummarize_run B apiBase audience _ ctx Hapi).
  rewrite (getApiToken_token B audience _ tok Htok Htokne).
  cbv beta iota zeta. rewrite Hfetch.
  unfold gateway_fetch, gateway_response. fold req. rewrite Hr.
  destruct Hshape as [(-> & s & Hs & Hst)|(Hst & e & He & Het)].
  - change (ok {| status := 200; json := Some b |}) with true. cbv beta iota.
    cbn [fst settled with_call started page loading summary error json default
         from_option id].
    split; [reflexivity|]. left. split; [done|]. exists s.
    do 2 (split; [done|]). split; [|done].
    change (default ([] : jsstring) (b !! "summary") = s). by rewrite Hs.
  - assert (ok {| status := st; json := Some b |} = false) as ->
      by (by destruct Hst as [-> | ->]).
    cbv beta iota.
    cbn [fst settled with_call started page loading summary error].
    split; [reflexivity|]. right. split; [done|]. split; [reflexivity|].
    exists e. split; [done|]. f_equal.
    unfold failure_message. cbn [json status default from_option id].
    change (id b) with b. unfold jsstring in *. rewrite He.
    cbn [default from_option id].
    rewrite (or_else_of_truthy e _ Het).
    apply or_else_of_truthy, or_else_truthy, Het.
Qed.

(** X17 with the sample deployment: a forged token, and a good one. *)
Lemma page_shows_what_the_gateway_answers_witness :
  let Wd := Sample.world Sample.gemini_ok Sample.openai_ok in
  let browser (tok : jsstring) :=
    {| getAccessTokenSilently := fun _ => inr tok;
       loginWithRedirect := fun _ => None;
       fetch := gateway_fetch Wd Sample.both_env |} in
  loading (page (fst (handleSummarize (browser (lit "forged")) (lit "/api")
                        (lit "aud") (typed Sample.notes)))) = false
  /\ loading (page (fst (handleSummarize (browser Sample.token) (lit "/api")
                           (lit "aud") (typed Sample.notes)))) = false.
Proof.
  cbv zeta. split.
  - destruct (page_shows_what_the_gateway_answers
                (Sample.world Sample.gemini_ok Sample.openai_ok) Sample.both_env
                {| getAccessTokenSilently := fun _ => inr (lit "forged");
                   loginWithRedirect := fun _ => None;
                   fetch := gateway_fetch (Sample.world Sample.gemini_ok Sample.openai_ok)
                              Sample.both_env |}
                (lit "/api") (lit "aud") (typed Sample.notes) (lit "forged")
                eq_refl eq_refl ltac:(by vm_compute) eq_refl eq_refl eq_refl)
      as (st & b & _ & Hl & _).
    exact Hl.
  - destruct (page_shows_what_the_gateway_answers
                (Sample.world Sample.gemini_ok Sample.openai_ok) Sample.both_env
                {| getAccessTokenSilently := fun _ => inr Sample.token;
                   loginWithRedirect := fun _ => None;
                   fetch := gateway_fetch (Sample.world Sample.gemini_ok Sample.openai_ok)
                              Sample.both_env |}
                (lit "/api") (lit "aud") (typed Sample.notes) Sample.token
                eq_refl eq_refl ltac:(by vm_compute) eq_refl eq_refl eq_refl)
      as (st & b & _ & Hl & _).
    exact Hl.
Defined.

(** ** The PDF export *)


Lemma texts_draw_lines pageBottom lines y :
  texts (draw_lines pageBottom lines y) = lines.
Proof.
  revert y. induction lines as [|line rest IH]; intros y; [done|].
  cbn [draw_lines]. destruct (below pageBottom y); cbn; by rewrite IH.
Qed.


Lemma pages_added_draw_lines pageBottom lines y :
  (pages_added (draw_lines pageBottom lines y) <= length lines)%nat.
Proof.
  revert y. induction lines as [|line rest IH]; intros y; [done|].
  cbn [draw_lines]. destruct (below pageBottom y).
  - specialize (IH (64 + 16)%Z). unfold pages_added in *. cbn. lia.
  - specialize (IH (y + 16)%Z). unfold pages_added in *. cbn. lia.
Qed.

(** X18. The PDF export loses no line: the text it draws is the title, the
    line with the date, and then the lines of the summary, each once and in
    order, whatever the height of the page; it adds at most one page per
    line and ends by saving under a name made of the first ten characters of
    the ISO date. *)
Theorem downloadPdf_draws_every_line pageBottom lines now_locale now_iso :
  texts (downloadPdf pageBottom lines now_locale now_iso)
  = [lit "SummarAIze " ++ [8212] ++ lit " Summary"; lit "Generated: " ++ now_locale]
    ++ lines
  /\ (pages_added (downloadPdf pageBottom lines now_locale now_iso)
      <= length lines)%nat
  /\ last (downloadPdf pageBottom lines now_locale now_iso)
     = Some (Save (lit "summary-" ++ take 10 now_iso ++ lit ".pdf")).
Proof.
  unfold downloadPdf. split; [|split].
  - unfold texts. rewrite !omap_app.
    fold (texts (draw_lines pageBottom lines (64 + 24 + 20))).
    rewrite texts_draw_lines. cbn. by rewrite app_nil_r.
  - pose proof (pages_added_draw_lines pageBottom lines (64 + 24 + 20)) as H.
    unfold pages_added in *. rewrite !List.filter_app. cbn [List.filter app].
    rewrite length_app. cbn [length]. lia.
  - rewrite app_assoc. apply last_snoc.
Qed.

(** Every line of the loop is drawn between the top and the bottom
    margin. *)
Lemma draw_lines_on_the_page pageBottom lines y0 :
  (64 <= pageBottom)%Q -> (64 <= y0)%Z ->
  forall line x y,
    In (DocText line x y) (draw_lines pageBottom lines y0) ->
    x = 48%Z /\ (64 <= y)%Z /\ (inject_Z y <= pageBottom)%Q.
Proof.
  intros Hpage. revert y0.
  induction lines as [|l rest IH]; intros y0 Hy0 line x y; [done|].
  cbn [draw_lines]. destruct (below pageBottom y0) eqn:Hb.
  - intros [[=]|[[= <- <- <-]|Hin]].
    + split; [done|]. split; [lia|]. exact Hpage.
    + apply (IH (64 + 16)%Z ltac:(lia) line x y Hin).
  - intros [[= <- <- <-]|Hin].
    + split; [done|]. split; [done|].
      unfold below in Hb. apply negb_false_iff in Hb. by apply Qle_bool_iff.
    + apply (IH (y0 + 16)%Z ltac:(lia) line x y Hin).
Qed.

Lemma below_lt pageBottom y :
  below pageBottom y = true -> (pageBottom < inject_Z y)%Q.
Proof.
  unfold below. intros H%negb_true_iff. apply Qnot_le_lt.
  intros Hle%Qle_bool_iff. congruence.
Qed.

(** How the loop starts from the position [y]: with a new page when [y] is
    below the bottom margin, with the line at [y] when it is not. *)
Lemma draw_lines_head pageBottom lines y :
  match draw_lines pageBottom lines y !! 0%nat with
  | Some AddPage => below pageBottom y = true
  | Some (DocText _ _ y') => y' = y /\ below pageBottom y = false
  | Some _ => False
  | None => True
  end.
Proof.
  destruct lines as [|l rest]; [done|].
  cbn [draw_lines]. by destruct (below pageBottom y) eqn:Hb.
Qed.

(** The loop adds pages and draws text, nothing else. *)
Lemma draw_lines_ops pageBottom lines y0 i op :
  draw_lines pageBottom lines y0 !! i = Some op ->
  op = AddPage \/ exists line x y, op = DocText line x y.
Proof.
  revert y0 i. induction lines as [|l rest IH]; intros y0 i; [done|].
  cbn [draw_lines]. destruct (below pageBottom y0).
  - destruct i as [|[|i]]; [intros [= <-]; auto|intros [= <-]; eauto|apply IH].
  - destruct i as [|i]; [intros [= <-]; eauto|apply IH].
Qed.

(** A new page is followed at once by a line at the top margin. *)
Lemma draw_lines_page_break pageBottom lines y0 i :
  draw_lines pageBottom lines y0 !! i = Some AddPage ->
  exists line, draw_lines pageBottom lines y0 !! S i = Some (DocText line 48 64).
Proof.
  revert y0 i. induction lines as [|l rest IH]; intros y0 i; [done|].
  cbn [draw_lines]. destruct (below pageBottom y0).
  - destruct i as [|[|i]]; [by eexists|done|apply IH].
  - destruct i as [|i]; [done|apply IH].
Qed.

(** What follows a line drawn at [y]: a new page when [y + 16] is below the
    bottom margin, the next line at [y + 16] when it is not. *)
Lemma draw_lines_next pageBottom lines y0 i line x y :
  draw_lines pageBottom lines y0 !! i = Some (DocText line x y) ->
  match draw_lines pageBottom lines y0 !! S i with
  | Some AddPage => below pageBottom (y + 16) = true
  | Some (DocText _ _ y') => y' = (y + 16)%Z /\ below pageBottom (y + 16) = false
  | _ => True
  end.
Proof.
  revert y0 i. induction lines as [|l rest IH]; intros y0 i; [done|].
  cbn [draw_lines]. destruct (below pageBottom y0).
  - destruct i as [|[|i]]; [done| |apply IH].
    intros [= <- <- <-].
    pose proof (draw_lines_head pageBottom rest (64 + 16)) as Hh.
    change ((AddPage :: DocText l 48 64 :: draw_lines pageBottom rest (64 + 16)) !! 2%nat)
      with (draw_lines pageBottom rest (64 + 16) !! 0%nat).
    by destruct (draw_lines pageBottom rest (64 + 16) !! 0%nat) as [[]|].
  - destruct i as [|i]; [|apply IH].
    intros [= <- <- <-].
    pose proof (draw_lines_head pageBottom rest (y0 + 16)) as Hh.
    change ((DocText l 48 y0 :: draw_lines pageBottom rest (y0 + 16)) !! 1%nat)
      with (draw_lines pageBottom rest (y0 + 16) !! 0%nat).
    by destruct (draw_lines pageBottom rest (y0 + 16) !! 0%nat) as [[]|].
Qed.

(** The operations of an export, by position: the nine of the heading, then
    those of the loop, then the [save]. *)
Lemma downloadPdf_body pageBottom lines now_locale now_iso i :
  downloadPdf pageBottom lines now_locale now_iso !! (9 + i)%nat
  = (draw_lines pageBottom lines (64 + 24 + 20)
     ++ [Save (lit "summary-" ++ take 10 now_iso ++ lit ".pdf")]) !! i.
Proof. reflexivity. Qed.

Lemma lookup_before_save (ops : list DocOp) f i op :
  (ops ++ [Save f]) !! i = Some op ->
  (forall g, op <> Save g) ->
  ops !! i = Some op.
Proof.
  intros [[_ H]|[_ <-]]%lookup_snoc_Some Hop; [done|]. by destruct (Hop f).
Qed.

(** A line of an export that is followed at once by a new page or by
    another line is a line of the loop, and so is what follows it. *)
Lemma downloadPdf_line_then pageBottom lines now_locale now_iso i line x y op :
  op = AddPage \/ (exists line' x' y', op = DocText line' x' y') ->
  downloadPdf pageBottom lines now_locale now_iso !! i = Some (DocText line x y) ->
  downloadPdf pageBottom lines now_locale now_iso !! S i = Some op ->
  exists j,
    draw_lines pageBottom lines (64 + 24 + 20) !! j = Some (DocText line x y)
    /\ draw_lines pageBottom lines (64 + 24 + 20) !! S j = Some op.
Proof.
  intros Hop.
  do 9 (destruct i as [|i];
        [intros Hi Hnext; exfalso;
         first [discriminate Hi
               |destruct Hop as [->|(? & ? & ? & ->)]; discriminate Hnext]|]).
  change (S (S (S (S (S (S (S (S (S (S i)))))))))) with (9 + S i)%nat.
  change (S (S (S (S (S (S (S (S (S i))))))))) with (9 + i)%nat.
  rewrite !downloadPdf_body.
  intros Hi%lookup_before_save; [|done].
  intros Hnext%lookup_before_save; [by exists i|].
  by destruct Hop as [->|(? & ? & ? & ->)].
Qed.

(** X19. The PDF export keeps the text on the page and breaks pages where
    the text would leave it.  When the bottom margin is not above the line
    with the date: every piece of text, the title, the date and each line of
    the summary, is drawn at the left margin and at a height between the top
    margin and the bottom one; an added page is followed at once by a line
    drawn at the top margin; a page is added after a line only when the
    position 16 further down is below the bottom margin, and before the
    first line only when 108 is; and two lines drawn one after the other
    without a new page are 16 apart, the first at 108. *)
Theorem downloadPdf_keeps_text_on_the_page pageBottom lines now_locale now_iso :
  (88 <= pageBottom)%Q ->
  (forall line x y,
      In (DocText line x y) (downloadPdf pageBottom lines now_locale now_iso) ->
      x = 48%Z /\ (64 <= y)%Z /\ (inject_Z y <= pageBottom)%Q)
  /\
  (forall i,
      downloadPdf pageBottom lines now_locale now_iso !! i = Some AddPage ->
      exists line,
        downloadPdf pageBottom lines now_locale now_iso !! S i
        = Some (DocText line 48 64))
  /\
  (forall i line x y,
      downloadPdf pageBottom lines now_locale now_iso !! i = Some (DocText line x y) ->
      (downloadPdf pageBottom lines now_locale now_iso !! S i = Some AddPage ->
       (pageBottom < inject_Z (y + 16))%Q)
      /\ (forall line' x' y',
             downloadPdf pageBottom lines now_locale now_iso !! S i
             = Some (DocText line' x' y') ->
             y' = (y + 16)%Z))
  /\
  (forall i,
      downloadPdf pageBottom lines now_locale now_iso !! i = Some (SetFontSize 12) ->
      (downloadPdf pageBottom lines now_locale now_iso !! S i = Some AddPage ->
       (pageBottom < 108)%Q)
      /\ (forall line x y,
             downloadPdf pageBottom lines now_locale now_iso !! S i
             = Some (DocText line x y) ->
             y = 108%Z)).
Proof.
  intros Hpage.
  assert (64 <= pageBottom)%Q as Hpage'.
  { eapply Qle_trans; [|exact Hpage]. by vm_compute. }
  split; [|split; [|split]].
  - intros line x y. unfold downloadPdf.
    intros [Hin|[Hin|Hin]%in_app_or]%in_app_or.
    + cbn [In] in Hin.
      destruct Hin as [[=]|[[=]|[[= <- <- <-]|[[=]|[[=]|[[=]|[[= <- <- <-]|[[=]|[[=]|[]]]]]]]]]].
      * split; [done|]. split; [done|]. exact Hpage'.
      * split; [done|]. split; [done|]. exact Hpage.
    + apply (draw_lines_on_the_page pageBottom lines (64 + 24 + 20)%Z Hpage'
               ltac:(lia) line x y Hin).
    + by destruct Hin as [[=]|[]].
  - intros i. do 9 (destruct i as [|i]; [done|]).
    change (S (S (S (S (S (S (S (S (S (S i)))))))))) with (9 + S i)%nat.
    change (S (S (S (S (S (S (S (S (S i))))))))) with (9 + i)%nat.
    rewrite !downloadPdf_body. intros H%lookup_before_save; [|done].
    destruct (draw_lines_page_break _ _ _ _ H) as [line Hnext].
    exists line. by apply lookup_app_l_Some.
  - intros i line x y Hi.
    split.
    + intros Hnext.
      destruct (downloadPdf_line_then _ _ _ _ _ _ _ _ AddPage ltac:(by left) Hi Hnext)
        as (j & Hj & Hj').
      pose proof (draw_lines_next _ _ _ _ _ _ _ Hj) as Hn. rewrite Hj' in Hn.
      by apply below_lt.
    + intros line' x' y' Hnext.
      destruct (downloadPdf_line_then _ _ _ _ _ _ _ _ (DocText line' x' y')
                  ltac:(right; eauto) Hi Hnext) as (j & Hj & Hj').
      pose proof (draw_lines_next _ _ _ _ _ _ _ Hj) as Hn. rewrite Hj' in Hn.
      by destruct Hn.
  - intros i Hi.
    assert (i = 8%nat) as ->.
    { revert Hi. do 9 (destruct i as [|i]; [try done|]).
      change (S (S (S (S (S (S (S (S (S i))))))))) with (9 + i)%nat.
      rewrite downloadPdf_body. intros Hi%lookup_before_save; [|done].
      by destruct (draw_lines_ops _ _ _ _ _ Hi) as [?|(? & ? & ? & ?)]. }
    change 9%nat with (9 + 0)%nat. rewrite downloadPdf_body.
    pose proof (draw_lines_head pageBottom lines (64 + 24 + 20)) as Hh.
    split.
    + intros Hnext%lookup_before_save; [|done]. rewrite Hnext in Hh.
      by apply below_lt in Hh.
    + intros line x y Hnext%lookup_before_save; [|done]. rewrite Hnext in Hh.
      by destruct Hh.
Qed.

(** X19 on an A4 page, whose bottom margin is at 777.89 points: of fifty
    lines the forty-second is drawn at 764, a page is added after it, and
    the forty-third is drawn on that page at the top margin. *)
Lemma downloadPdf_keeps_text_on_the_page_witness :
  let doc := downloadPdf (77789 # 100) (repeat (lit "a line") 50)
               (lit "1/1/2026, 10:00:00 AM") (lit "2026-01-01T10:00:00.000Z") in
  (88 <= 77789 # 100)%Q
  /\ doc !! 50%nat = Some (DocText (lit "a line") 48 764)
  /\ doc !! 51%nat = Some AddPage
  /\ (77789 # 100 < inject_Z (764 + 16))%Q
  /\ exists line, doc !! 52%nat = Some (DocText line 48 64).
Proof.
  cbv zeta.
  assert (downloadPdf (77789 # 100) (repeat (lit "a line") 50)
            (lit "1/1/2026, 10:00:00 AM") (lit "2026-01-01T10:00:00.000Z") !! 50%nat
          = Some (DocText (lit "a line") 48 764)) as H50 by (by vm_compute).
  assert (downloadPdf (77789 # 100) (repeat (lit "a line") 50)
            (lit "1/1/2026, 10:00:00 AM") (lit "2026-01-01T10:00:00.000Z") !! 51%nat
          = Some AddPage) as H51 by (by vm_compute).
  destruct (downloadPdf_keeps_text_on_the_page (77789 # 100)
              (repeat (lit "a line") 50)
              (lit "1/1/2026, 10:00:00 AM") (lit "2026-01-01T10:00:00.000Z")
              ltac:(by vm_compute)) as (_ & Hbreak & Hnext & _).
  split; [by vm_compute|]. split; [exact H50|]. split; [exact H51|].
  split; [exact (proj1 (Hnext _ _ _ _ H50) H51)|exact (Hbreak _ H51)].
Defined.

End PageFacts.
